(** * PDF reader tool server: a shallow embedding of [pdf_mcp_server.py]

    The three tools [read_pdf_text], [get_pdf_info] and
    [list_pdfs_in_directory] are embedded as functions from an environment
    (the filesystem and the two PDF libraries) and the tool arguments to the
    returned Python dictionary.  Dictionaries are finite maps from strings to
    JSON-like values; code that may raise runs in a small exception monad and
    every tool ends in the [try ... except PermissionError ... except
    Exception] handler of the source.  [read_pdf_text] is also given as a
    sequence of calls that act on the state of the machine, to relate two
    calls made one after the other. *)

From Stdlib Require Import ZArith String Ascii List Lia.
From Stdlib Require Import Floats.PrimFloat.
From stdpp Require Import base option list gmap strings.

Local Open Scope string_scope.

(** ** Python values *)

(** The values that occur in the returned dictionaries; [VObject] is any
    other Python object, told by its [repr]. *)
#[warnings="-register-all"]
Inductive value : Type :=
  | VNone
  | VBool (b : bool)
  | VInt (z : Z)
  | VFloat (f : float)
  | VStr (s : string)
  | VList (l : list value)
  | VDict (d : gmap string value)
  | VObject (repr : string).

(** A dictionary display [{k1: v1, k2: v2, ...}] with distinct keys. *)
Definition dict (items : list (string * value)) : gmap string value :=
  list_to_map items.

(** ** Exceptions *)

(** Instances of [Exception]: [PermissionError] is told apart by the
    handlers, every other class falls in the generic clause.  The string is
    what [str(e)] gives. *)
Inductive exn : Type :=
  | PermissionError (msg : string)
  | OtherException (msg : string).

Definition str_exn (e : exn) : string :=
  match e with
  | PermissionError msg => msg
  | OtherException msg => msg
  end.

Inductive result (A : Type) : Type :=
  | Ok (a : A)
  | Raise (e : exn).
Arguments Ok {A} a.
Arguments Raise {A} e.

Definition rbind {A B : Type} (m : result A) (k : A -> result B) : result B :=
  match m with
  | Ok a => k a
  | Raise e => Raise e
  end.

Notation "'let*' p ':=' m 'in' k" := (rbind m (fun p => k))
  (at level 10, p pattern, m at level 200, k at level 200).

(** [try: body / except PermissionError as e: ... / except Exception as e: ...]
    around a body that returns a dictionary. *)
Definition try_except (body : result (gmap string value))
    (on_permission_error on_exception : string -> gmap string value)
  : gmap string value :=
  match body with
  | Ok r => r
  | Raise (PermissionError msg) => on_permission_error msg
  | Raise (OtherException msg) => on_exception msg
  end.

(** ** Strings *)

Definition newline : ascii := ascii_of_nat 10.

(** The separator ["\n\n"]. *)
Definition blank_line : string := String newline (String newline EmptyString).

(** [sep.join(parts)] *)
Fixpoint str_join (sep : string) (parts : list string) : string :=
  match parts with
  | [] => ""
  | [p] => p
  | p :: rest => p ++ sep ++ str_join sep rest
  end.

(** [str.lower] on the letters A-Z.  Strings are UTF-8 byte strings here; no
    byte of a multi-byte sequence is an ASCII letter, and no non-ASCII letter
    lowers to one of [p], [d], [f], so the suffix test below agrees with
    Python's on every file name. *)
Definition lower_ascii (c : ascii) : ascii :=
  let n := nat_of_ascii c in
  if (65 <=? n)%nat && (n <=? 90)%nat then ascii_of_nat (n + 32) else c.

Fixpoint lower (s : string) : string :=
  match s with
  | EmptyString => EmptyString
  | String c s' => String (lower_ascii c) (lower s')
  end.

(** [s.endswith(suffix)] *)
Definition endswith (s suffix : string) : bool :=
  let n := String.length s in
  let k := String.length suffix in
  (k <=? n)%nat && String.eqb (substring (n - k) k s) suffix.

(** ** The PDF libraries *)

(** A table from [page.extract_tables()]: rows of cells, a cell is a string
    or [None]. *)
Definition table : Type := list (list (option string)).

Definition cell_value (c : option string) : value :=
  match c with
  | Some s => VStr s
  | None => VNone
  end.

Definition table_value (t : table) : value :=
  VList (map (fun row => VList (map cell_value row)) t).

(** A pdfplumber page: what its two extraction methods do when called. *)
Record Page : Type := {
  extract_text : result (option string);
  extract_tables : result (list table)
}.

(** A pdfplumber document; [pdf.pages] is computed when first read and may
    raise. *)
Record PDF : Type := {
  pdf_pages : result (list Page)
}.

(** A Python object as the code uses the entries of an info dictionary: the
    value it is, and what [str] returns for it.  The entries are PyPDF2
    objects: text strings as a rule, but also numbers, nulls or indirect
    references. *)
Record PyObject : Type := {
  py_value : value;
  py_str : string
}.

(** The Python string [s]. *)
Definition text_string (s : string) : PyObject :=
  {| py_value := VStr s; py_str := s |}.

(** A [PyPDF2.PdfReader]: the length of [reader.pages] and the [metadata]
    property ([None] when the trailer has no info dictionary). *)
Record Reader : Type := {
  reader_num_pages : result nat;
  reader_metadata : result (option (gmap string PyObject))
}.

(** ** The environment *)

(** The filesystem as seen through [os], [os.path] and [open], and the
    entry points of the two libraries. *)
Record Env : Type := {
  isabs : string -> bool;
  path_exists : string -> bool;
  isdir : string -> bool;
  getsize : string -> result Z;
  getmtime : string -> result float;
  (* os.walk(top) with its default onerror=None: errors of the scan are
     ignored, the triples (root, dirs, files) come in traversal order *)
  walk : string -> list (string * list string * list string);
  (* os.path.join, abspath and relpath compute on the path strings; on paths
     built from an absolute walk root they raise nothing *)
  path_join : string -> string -> string;
  abspath : string -> string;
  relpath : string -> string -> string;
  pdfplumber_open : string -> result PDF;
  open_rb : string -> result (list Byte.byte);
  PdfReader : list Byte.byte -> result Reader
}.

(** ** read_pdf_text *)

(** [l[i]] for a Python list: negative indices count from the end, an index
    out of range raises [IndexError]. *)
Definition py_index {A : Type} (l : list A) (i : Z) : result A :=
  let n := Z.of_nat (length l) in
  let j := if (i <? 0)%Z then (i + n)%Z else i in
  if (0 <=? j)%Z && (j <? n)%Z then
    match l !! Z.to_nat j with
    | Some x => Ok x
    | None => Raise (OtherException "list index out of range")
    end
  else Raise (OtherException "list index out of range").

(** [range(n)] *)
Definition py_range (n : nat) : list Z := map Z.of_nat (seq 0 n).

(** [x or ""] for [x] a string or [None]. *)
Definition or_empty (x : option string) : string :=
  match x with
  | Some EmptyString => ""
  | Some s => s
  | None => ""
  end.

(** [tables if tables else []] *)
Definition tables_or_empty (tables : list table) : list table :=
  match tables with
  | [] => []
  | _ :: _ => tables
  end.

(** The body of the [for page_idx in pages_to_process] loop up to the two
    appends: the page dictionary and the page text. *)
Definition process_page (pages : list Page) (with_tables : bool) (page_idx : Z)
  : result (gmap string value * string) :=
  let* page := py_index pages page_idx in
  let* text := extract_text page in
  let page_text := or_empty text in
  let page_info :=
    dict [("page_number", VInt (page_idx + 1)); ("text", VStr page_text)] in
  let page_info :=
    if with_tables then
      match extract_tables page with
      | Ok tables =>
          <["tables" := VList (map table_value (tables_or_empty tables))]> page_info
      | Raise e =>
          <["table_extraction_error" := VStr (str_exn e)]>
            (<["tables" := VList []]> page_info)
      end
    else page_info in
  Ok (page_info, page_text).

(** The loop, threading [result["pages"]] and [full_text_parts]. *)
Fixpoint process_pages (pages : list Page) (with_tables : bool)
    (pages_to_process : list Z)
    (result_pages : list value) (full_text_parts : list string)
  : result (list value * list string) :=
  match pages_to_process with
  | [] => Ok (result_pages, full_text_parts)
  | page_idx :: rest =>
      let* (page_info, page_text) := process_page pages with_tables page_idx in
      process_pages pages with_tables rest
        (result_pages ++ [VDict page_info]) (full_text_parts ++ [page_text])
  end.

(** [[p - 1 for p in page_numbers if 0 < p <= n]] *)
Definition selected_indices (page_numbers : list Z) (n : Z) : list Z :=
  map (fun p => (p - 1)%Z)
    (filter (fun p => (0 < p)%Z /\ (p <= n)%Z) page_numbers).

(** The [if page_numbers is None ... else ...] that sets [pages_to_process];
    [n] is [len(pdf.pages)]. *)
Definition pages_to_process (page_numbers : option (list Z)) (n : nat) : list Z :=
  match page_numbers with
  | None => py_range n
  | Some page_numbers => selected_indices page_numbers (Z.of_nat n)
  end.

(** The error form [{"success": False, "error": msg}]. *)
Definition failure (msg : string) : gmap string value :=
  dict [("success", VBool false); ("error", VStr msg)].

Definition read_pdf_text_body (env : Env) (file_path : string)
    (page_numbers : option (list Z)) (with_tables : bool)
  : result (gmap string value) :=
  if negb (isabs env file_path) then
    Ok (failure ("File path must be absolute path, got: " ++ file_path))
  else if negb (path_exists env file_path) then
    Ok (failure ("File not found: " ++ file_path))
  else if negb (endswith (lower file_path) ".pdf") then
    Ok (failure "File must be a PDF")
  else
    let result :=
      dict [("success", VBool true); ("file_path", VStr file_path);
            ("pages", VList []); ("total_pages", VInt 0);
            ("full_text", VStr "")] in
    let* pdf := pdfplumber_open env file_path in
    let* pages := pdf_pages pdf in
    let result := <["total_pages" := VInt (Z.of_nat (length pages))]> result in
    let pages_to_process := pages_to_process page_numbers (length pages) in
    let* (result_pages, full_text_parts) :=
      process_pages pages with_tables pages_to_process [] [] in
    let result := <["pages" := VList result_pages]> result in
    let result := <["full_text" := VStr (str_join blank_line full_text_parts)]> result in
    Ok result.

(** The two [except] clauses of [read_pdf_text], applied to whatever the
    [try] block did. *)
Definition read_pdf_text_except (file_path : string)
    (body : result (gmap string value)) : gmap string value :=
  try_except body
    (fun msg => failure ("Permission denied accessing file: " ++ file_path
                          ++ ". Error: " ++ msg))
    (fun msg => failure ("Error reading PDF: " ++ msg)).

Definition read_pdf_text (env : Env) (file_path : string)
    (page_numbers : option (list Z)) (with_tables : bool)
  : gmap string value :=
  read_pdf_text_except file_path
    (read_pdf_text_body env file_path page_numbers with_tables).

(** ** get_pdf_info *)

(** [metadata.get(key, "")] *)
Definition metadata_get (metadata : gmap string PyObject) (key : string)
  : PyObject :=
  match metadata !! key with
  | Some entry => entry
  | None => text_string ""
  end.

(** Truth value of [pdf_reader.metadata]: [None] is false, and a dictionary
    is true when its length is not zero. *)
Definition metadata_truthy (metadata : option (gmap string PyObject)) : bool :=
  match metadata with
  | Some m => negb (size m =? 0)%nat
  | None => false
  end.

(** The dictionary assigned to [info["metadata"]] inside the [if]: the first
    five entries are stored as they are, the two dates through [str]. *)
Definition metadata_fields (metadata : gmap string PyObject)
  : gmap string value :=
  dict [("title", py_value (metadata_get metadata "/Title"));
        ("author", py_value (metadata_get metadata "/Author"));
        ("subject", py_value (metadata_get metadata "/Subject"));
        ("creator", py_value (metadata_get metadata "/Creator"));
        ("producer", py_value (metadata_get metadata "/Producer"));
        ("creation_date", VStr (py_str (metadata_get metadata "/CreationDate")));
        ("modification_date", VStr (py_str (metadata_get metadata "/ModDate")))].

(** The [with open(file_path, 'rb') as file] block. *)
Definition get_pdf_info_read (env : Env) (file_path : string)
  : result (gmap string value) :=
  let* file := open_rb env file_path in
  let* pdf_reader := PdfReader env file in
  let* page_count := reader_num_pages pdf_reader in
  let info :=
    dict [("success", VBool true); ("file_path", VStr file_path);
          ("page_count", VInt (Z.of_nat page_count));
          ("metadata", VDict ∅)] in
  let* metadata := reader_metadata pdf_reader in
  let info :=
    if metadata_truthy metadata then
      match metadata with
      | Some metadata => <["metadata" := VDict (metadata_fields metadata)]> info
      | None => info
      end
    else info in
  let* file_size := getsize env file_path in
  let info := <["file_size" := VInt file_size]> info in
  Ok info.

Definition get_pdf_info_body (env : Env) (file_path : string)
  : result (gmap string value) :=
  if negb (isabs env file_path) then
    Ok (failure ("File path must be absolute path, got: " ++ file_path))
  else if negb (path_exists env file_path) then
    Ok (failure ("File not found: " ++ file_path))
  else get_pdf_info_read env file_path.

Definition get_pdf_info_except (file_path : string)
    (body : result (gmap string value)) : gmap string value :=
  try_except body
    (fun msg => failure ("Permission denied accessing file: " ++ file_path
                          ++ ". Error: " ++ msg))
    (fun msg => failure ("Error getting PDF info: " ++ msg)).

Definition get_pdf_info (env : Env) (file_path : string) : gmap string value :=
  get_pdf_info_except file_path (get_pdf_info_body env file_path).

(** ** list_pdfs_in_directory *)

(** The [try ... except PermissionError ... except Exception] around the two
    stat calls: the dictionary appended to [pdf_files] for one file. *)
Definition file_entry (env : Env) (directory_path root file : string)
  : gmap string value :=
  let full_path := abspath env (path_join env root file) in
  let relative_path := relpath env full_path directory_path in
  let stat :=
    let* file_size := getsize env full_path in
    let* modification_time := getmtime env full_path in
    Ok (dict [("filename", VStr file); ("full_path", VStr full_path);
              ("relative_path", VStr relative_path);
              ("directory", VStr (abspath env root));
              ("size", VInt file_size);
              ("modified", VFloat modification_time)]) in
  try_except stat
    (fun msg =>
       dict [("filename", VStr file); ("full_path", VStr full_path);
             ("relative_path", VStr relative_path);
             ("directory", VStr (abspath env root));
             ("permission_error", VStr msg)])
    (fun msg =>
       dict [("filename", VStr file); ("full_path", VStr full_path);
             ("relative_path", VStr relative_path);
             ("directory", VStr (abspath env root));
             ("error", VStr msg)]).

(** [for file in files], threading [pdf_files]. *)
Fixpoint scan_files (env : Env) (directory_path root : string)
    (files : list string) (pdf_files : list value) : list value :=
  match files with
  | [] => pdf_files
  | file :: rest =>
      if endswith (lower file) ".pdf" then
        scan_files env directory_path root rest
          (pdf_files ++ [VDict (file_entry env directory_path root file)])
      else scan_files env directory_path root rest pdf_files
  end.

(** [for root, dirs, files in os.walk(directory_path)] *)
Fixpoint scan_walk (env : Env) (directory_path : string)
    (triples : list (string * list string * list string))
    (pdf_files : list value) : list value :=
  match triples with
  | [] => pdf_files
  | (root, dirs, files) :: rest =>
      scan_walk env directory_path rest
        (scan_files env directory_path root files pdf_files)
  end.

Definition list_pdfs_in_directory_body (env : Env) (directory_path : string)
  : result (gmap string value) :=
  if negb (isabs env directory_path) then
    Ok (failure ("Directory path must be absolute path, got: " ++ directory_path))
  else if negb (path_exists env directory_path) then
    Ok (failure ("Directory not found: " ++ directory_path))
  else if negb (isdir env directory_path) then
    Ok (failure ("Path is not a directory: " ++ directory_path))
  else
    let pdf_files := scan_walk env directory_path (walk env directory_path) [] in
    Ok (dict [("success", VBool true);
              ("search_directory", VStr directory_path);
              ("pdf_count", VInt (Z.of_nat (length pdf_files)));
              ("pdf_files", VList pdf_files)]).

Definition list_pdfs_in_directory_except (directory_path : string)
    (body : result (gmap string value)) : gmap string value :=
  try_except body
    (fun msg => failure ("Permission denied accessing directory: "
                          ++ directory_path ++ ". Error: " ++ msg))
    (fun msg => failure ("Error listing PDFs: " ++ msg)).

Definition list_pdfs_in_directory (env : Env) (directory_path : string)
  : gmap string value :=
  list_pdfs_in_directory_except directory_path
    (list_pdfs_in_directory_body env directory_path).

(** ** Observations on returned values *)

(** [sub in s] *)
Definition contains (s sub : string) : Prop :=
  exists pre post : string, s = pre ++ sub ++ post.

(** [v["page_number"]] and [v["text"]] of a page dictionary. *)
Definition page_number_of (v : value) : option Z :=
  match v with
  | VDict d => match d !! "page_number" with Some (VInt z) => Some z | _ => None end
  | _ => None
  end.

Definition text_of (v : value) : option string :=
  match v with
  | VDict d => match d !! "text" with Some (VStr s) => Some s | _ => None end
  | _ => None
  end.

(** Two newline characters (code 10), the separator of a blank line. *)
Definition double_newline : string := String "010" (String "010" "").

(** The requested numbers that are kept, as 1-based page numbers in the
    order the result lists them. *)
Definition kept_numbers (page_numbers : option (list Z)) (n : nat) : list Z :=
  match page_numbers with
  | None => map Z.of_nat (seq 1 n)
  | Some l => filter (fun p => (0 < p)%Z /\ (p <= Z.of_nat n)%Z) l
  end.

(** The text the loop records for the page with 1-based number [p]. *)
Definition text_of_page_number (pages : list Page) (p : Z) : string :=
  match pages !! Z.to_nat (p - 1) with
  | Some page =>
      match extract_text page with
      | Ok text => or_empty text
      | Raise _ => ""
      end
  | None => ""
  end.

(** The envelope invariant: a failed result has exactly the keys [success]
    and [error], a successful one has no [error]. *)
Definition envelope_ok (r : gmap string value) : Prop :=
  match r !! "success" with
  | Some (VBool false) =>
      dom r = ({["success"; "error"]} : gset string)
      /\ exists msg, r !! "error" = Some (VStr msg)
  | Some (VBool true) => r !! "error" = None
  | _ => False
  end.

(** What a handler makes of the outcome of its [try] block: a returned
    dictionary is passed on, a raised exception becomes the error form, and
    for a [PermissionError] the message holds the path and [str(e)]. *)
Definition converted (path : string) (body : result (gmap string value))
    (r : gmap string value) : Prop :=
  match body with
  | Ok d => r = d
  | Raise (PermissionError sysmsg) =>
      exists msg, r = failure msg /\ contains msg path /\ contains msg sysmsg
  | Raise (OtherException sysmsg) =>
      exists msg, r = failure msg /\ contains msg sysmsg
  end.


(** The files of the walk with a [.pdf] name, with their walk root, in
    traversal order. *)
Definition discovered (env : Env) (directory_path : string)
  : list (string * string) :=
  flat_map
    (fun '(root, _, files) =>
       map (pair root) (List.filter (fun file => endswith (lower file) ".pdf") files))
    (walk env directory_path).


(** Run [f] on each element in turn, stopping at the first exception. *)
Fixpoint collect {A B : Type} (f : A -> result B) (l : list A) : result (list B) :=
  match l with
  | [] => Ok []
  | x :: rest =>
      let* y := f x in
      let* ys := collect f rest in
      Ok (y :: ys)
  end.

(** The dictionary [read_pdf_text] returns when its [try] block completes. *)
Definition read_result (file_path : string) (total_pages : nat)
    (result_pages : list value) (full_text : string) : gmap string value :=
  dict [("success", VBool true); ("file_path", VStr file_path);
        ("pages", VList result_pages);
        ("total_pages", VInt (Z.of_nat total_pages));
        ("full_text", VStr full_text)].

(** The recognized keys of the [metadata] map, each with the key of the info
    dictionary it is read from and whether the entry goes through [str]. *)
Definition recognized_keys : list (string * string * bool) :=
  [("title", "/Title", false); ("author", "/Author", false);
   ("subject", "/Subject", false); ("creator", "/Creator", false);
   ("producer", "/Producer", false);
   ("creation_date", "/CreationDate", true);
   ("modification_date", "/ModDate", true)].

(** What a recognized key holds: the empty string when the info dictionary
    has no such entry, else the entry, as it is or as its [str]. *)
Definition expected_field (info_dict : gmap string PyObject)
    (pdf_key : string) (through_str : bool) : value :=
  match info_dict !! pdf_key with
  | None => VStr ""
  | Some entry => if through_str then VStr (py_str entry) else py_value entry
  end.

(** The [metadata] map of a successful result: empty without an info
    dictionary or with an empty one, else the seven recognized keys. *)
Definition expected_metadata (metadata : option (gmap string PyObject))
  : gmap string value :=
  match metadata with
  | None => ∅
  | Some info_dict =>
      match map_to_list info_dict with
      | [] => ∅
      | _ :: _ =>
          list_to_map
            (map (fun '(key, pdf_key, through_str) =>
                    (key, expected_field info_dict pdf_key through_str))
               recognized_keys)
      end
  end.

(** The [metadata] map that [get_pdf_info] returns for what
    [pdf_reader.metadata] gave. *)
Definition returned_metadata (metadata : option (gmap string PyObject))
  : gmap string value :=
  if metadata_truthy metadata then
    match metadata with
    | Some info_dict => metadata_fields info_dict
    | None => ∅
    end
  else ∅.

(** A name that ends in [.pdf], in any mix of cases. *)
Definition pdf_name (file : string) : Prop :=
  exists (stem : string) (c1 c2 c3 : ascii),
    file = stem ++ String "." (String c1 (String c2 (String c3 ""))) /\
    (c1 = "p" \/ c1 = "P")%char /\
    (c2 = "d" \/ c2 = "D")%char /\
    (c3 = "f" \/ c3 = "F")%char.

(** ** A sample environment

    A POSIX filesystem with a directory [/docs]: a five-page [report.pdf]
    without info dictionary, [titled.pdf] with a partly filled info
    dictionary, [locked.pdf] that may not be read, the text file [notes.txt], and
    for the listing the files [a.pdf], [b.PDF], [c.txt] and [sub/d.pdf]. *)
Module Sample.

Definition posix_isabs (path : string) : bool :=
  match path with
  | String "/" _ => true
  | _ => false
  end.

Definition page_with (text : string) : Page :=
  {| extract_text := Ok (Some text); extract_tables := Ok [] |}.

Definition report : PDF :=
  {| pdf_pages := Ok (map page_with ["one"; "two"; "three"; "four"; "five"]) |}.

Definition denied : exn := PermissionError "[Errno 13] Permission denied".
Definition missing : exn := OtherException "[Errno 2] No such file or directory".

(** The info dictionary of [titled.pdf]: a text title, a number where the
    subject should be, and a creation date left as an indirect reference. *)
Definition titled : gmap string PyObject :=
  <["/Title" := text_string "Report"]>
    (<["/Subject" := {| py_value := VInt 42; py_str := "42" |}]>
       (<["/CreationDate" :=
            {| py_value := VObject "IndirectObject(7, 0)";
               py_str := "IndirectObject(7, 0)" |}]> ∅)).

Definition one_of (paths : list string) (path : string) : bool :=
  existsb (String.eqb path) paths.

Definition env : Env :=
  {| isabs := posix_isabs;
     path_exists :=
       one_of ["/docs"; "/docs/report.pdf"; "/docs/titled.pdf";
               "/docs/locked.pdf"; "/docs/notes.txt"; "/docs/a.pdf";
               "/docs/b.PDF"; "/docs/c.txt"; "/docs/sub"; "/docs/sub/d.pdf";
               "docs/report.pdf"];
     isdir := one_of ["/docs"; "/docs/sub"];
     getsize := fun path =>
       if one_of ["/docs/report.pdf"; "/docs/titled.pdf"; "/docs/a.pdf"] path
       then Ok 2048%Z
       else if one_of ["/docs/b.PDF"; "/docs/locked.pdf"] path then Raise denied
       else Raise missing;
     getmtime := fun path =>
       if one_of ["/docs/a.pdf"] path then Ok 1700000000.5%float
       else Raise missing;
     walk := fun top =>
       if String.eqb top "/docs" then
         [("/docs", ["sub"], ["a.pdf"; "b.PDF"; "c.txt"]);
          ("/docs/sub", [], ["d.pdf"])]
       else [];
     path_join := fun a b => a ++ "/" ++ b;
     abspath := fun path => path;
     relpath := fun path start =>
       substring (String.length start + 1)
         (String.length path - String.length start - 1) path;
     pdfplumber_open := fun path =>
       if String.eqb path "/docs/report.pdf" then Ok report
       else if String.eqb path "/docs/locked.pdf" then Raise denied
       else Raise (OtherException "No /Root object! - Is this really a PDF?");
     open_rb := fun path =>
       if String.eqb path "/docs/report.pdf" then Ok [Byte.x25]
       else if String.eqb path "/docs/titled.pdf" then Ok [Byte.x25; Byte.x50]
       else if String.eqb path "/docs/notes.txt" then Ok []
       else if String.eqb path "/docs/locked.pdf" then Raise denied
       else Raise missing;
     PdfReader := fun bytes =>
       match bytes with
       | [] => Raise (OtherException "Cannot read an empty file")
       | [_] => Ok {| reader_num_pages := Ok 5; reader_metadata := Ok None |}
       | _ => Ok {| reader_num_pages := Ok 1; reader_metadata := Ok (Some titled) |}
       end |}.

End Sample.

(** What a page dictionary records about tables, by the [extract_tables]
    flag and the outcome of [page.extract_tables()]. *)
Definition tables_recorded (with_tables : bool) (page : Page)
    (d : gmap string value) : Prop :=
  if with_tables then
    match extract_tables page with
    | Ok tables =>
        d !! "tables" = Some (VList (map table_value tables)) /\
        d !! "table_extraction_error" = None
    | Raise e =>
        d !! "tables" = Some (VList []) /\
        d !! "table_extraction_error" = Some (VStr (str_exn e))
    end
  else d !! "tables" = None /\ d !! "table_extraction_error" = None.

(** The page numbers and texts of [r["pages"]], in order. *)
Definition page_summaries (r : gmap string value)
  : option (list (option Z * option string)) :=
  match r !! "pages" with
  | Some (VList l) => Some (map (fun v => (page_number_of v, text_of v)) l)
  | _ => None
  end.

(** The page with 1-based number [p] exists and its text extraction
    returns. *)
Definition text_extracts (pages : list Page) (p : Z) : Prop :=
  exists page text,
    pages !! Z.to_nat (p - 1) = Some page /\ extract_text page = Ok text.

(** The error form the handlers of [read_pdf_text] give for [e]. *)
Definition read_pdf_text_error (file_path : string) (e : exn)
  : gmap string value :=
  match e with
  | PermissionError msg =>
      failure ("Permission denied accessing file: " ++ file_path
               ++ ". Error: " ++ msg)
  | OtherException msg => failure ("Error reading PDF: " ++ msg)
  end.

(** The error form the handlers of [get_pdf_info] give for [e]. *)
Definition get_pdf_info_error (file_path : string) (e : exn)
  : gmap string value :=
  match e with
  | PermissionError msg =>
      failure ("Permission denied accessing file: " ++ file_path
               ++ ". Error: " ++ msg)
  | OtherException msg => failure ("Error getting PDF info: " ++ msg)
  end.


(** A second sample: [scan.pdf] has three pages; the text of the second
    cannot be extracted, the tables of the third cannot. *)
Module Scanned.

Definition pages : list Page :=
  [ {| extract_text := Ok (Some "cover");
       extract_tables := Ok [[[Some "a"; None]]] |};
    {| extract_text := Raise (OtherException "unsupported font");
       extract_tables := Ok [] |};
    {| extract_text := Ok None;
       extract_tables := Raise (OtherException "no edges") |} ].

Definition env : Env :=
  {| isabs := isabs Sample.env;
     path_exists := fun path =>
       String.eqb path "/docs/scan.pdf" || path_exists Sample.env path;
     isdir := isdir Sample.env;
     getsize := fun path =>
       if String.eqb path "/docs/scan.pdf"
       then Raise (PermissionError "[Errno 13] Permission denied")
       else getsize Sample.env path;
     getmtime := getmtime Sample.env;
     walk := walk Sample.env;
     path_join := path_join Sample.env;
     abspath := abspath Sample.env;
     relpath := relpath Sample.env;
     pdfplumber_open := fun path =>
       if String.eqb path "/docs/scan.pdf" then Ok {| pdf_pages := Ok pages |}
       else if String.eqb path "/docs/a.pdf"
       then Raise (OtherException "[Errno 2] No such file or directory")
       else pdfplumber_open Sample.env path;
     open_rb := fun path =>
       if String.eqb path "/docs/scan.pdf" then Ok [Byte.x25]
       else open_rb Sample.env path;
     PdfReader := PdfReader Sample.env |}.

End Scanned.

(** ** read_pdf_text as a sequence of calls

    The same function once more, now with every call to the operating
    system and to pdfplumber acting on the state of the machine: a call
    returns its outcome and the state it leaves behind. *)

(** The machine: its state [World], which holds the filesystem [disk] next
    to whatever else the calls may change (caches of the library, open
    handles, access counters), and the calls [read_pdf_text] makes. *)
Record System : Type := {
  World : Type;
  Disk : Type;
  disk : World -> Disk;
  Document : Type;
  PageRef : Type;
  sys_isabs : string -> bool;
  sys_exists : string -> World -> bool * World;
  sys_open : string -> World -> result Document * World;
  sys_pages : Document -> World -> result (list PageRef) * World;
  sys_extract_text : PageRef -> World -> result (option string) * World;
  sys_extract_tables : PageRef -> World -> result (list table) * World;
  sys_close : Document -> World -> World
}.

(** A call that leaves the filesystem as it was and whose outcome is decided
    by the filesystem alone. *)
Definition quiet {S : System} {A : Type} (call : World S -> A * World S) : Prop :=
  (forall w, disk S (snd (call w)) = disk S w) /\
  (forall w1 w2, disk S w1 = disk S w2 -> fst (call w1) = fst (call w2)).

(** The calls of [read_pdf_text] only read: the existence test, opening
    the document, loading its pages and the two extractions are quiet, and
    closing the document leaves the filesystem as it was. *)
Record reads_only (S : System) : Prop := {
  exists_quiet : forall path, quiet (sys_exists S path);
  open_quiet : forall path, quiet (sys_open S path);
  pages_quiet : forall pdf, quiet (sys_pages S pdf);
  extract_text_quiet : forall page, quiet (sys_extract_text S page);
  extract_tables_quiet : forall page, quiet (sys_extract_tables S page);
  close_disk : forall pdf w, disk S (sys_close S pdf w) = disk S w
}.

Section Calls.

Variable S : System.

(** A computation that may raise and may change the state. *)
Definition io (A : Type) : Type := World S -> result A * World S.

Definition io_ret {A : Type} (a : A) : io A := fun w => (Ok a, w).

Definition io_lift {A : Type} (r : result A) : io A := fun w => (r, w).

Definition io_bind {A B : Type} (m : io A) (k : A -> io B) : io B :=
  fun w =>
    match m w with
    | (Ok a, w') => k a w'
    | (Raise e, w') => (Raise e, w')
    end.

Notation "'let!' p ':=' m 'in' k" := (io_bind m (fun p => k))
  (at level 10, p pattern, m at level 200, k at level 200).

(** [os.path.exists] raises nothing. *)
Definition io_exists (path : string) : io bool :=
  fun w => let (found, w') := sys_exists S path w in (Ok found, w').

(** [with pdfplumber.open(path) as pdf: body]: the document is closed when
    the block is left, also by an exception. *)
Definition io_with_open {A : Type} (path : string) (body : Document S -> io A)
  : io A :=
  fun w =>
    match sys_open S path w with
    | (Ok pdf, w1) => let (r, w2) := body pdf w1 in (r, sys_close S pdf w2)
    | (Raise e, w1) => (Raise e, w1)
    end.

(** The [try ... except Exception] around [page.extract_tables()]. *)
Definition io_page_tables (page : PageRef S) (page_info : gmap string value)
  : io (gmap string value) :=
  fun w =>
    match sys_extract_tables S page w with
    | (Ok tables, w') =>
        (Ok (<["tables" := VList (map table_value (tables_or_empty tables))]>
               page_info), w')
    | (Raise e, w') =>
        (Ok (<["table_extraction_error" := VStr (str_exn e)]>
               (<["tables" := VList []]> page_info)), w')
    end.

Definition io_process_page (pages : list (PageRef S)) (with_tables : bool)
    (page_idx : Z) : io (gmap string value * string) :=
  let! page := io_lift (py_index pages page_idx) in
  let! text := sys_extract_text S page in
  let page_text := or_empty text in
  let page_info :=
    dict [("page_number", VInt (page_idx + 1)); ("text", VStr page_text)] in
  let! page_info :=
    if with_tables then io_page_tables page page_info else io_ret page_info in
  io_ret (page_info, page_text).

Fixpoint io_process_pages (pages : list (PageRef S)) (with_tables : bool)
    (pages_to_process : list Z)
    (result_pages : list value) (full_text_parts : list string)
  : io (list value * list string) :=
  match pages_to_process with
  | [] => io_ret (result_pages, full_text_parts)
  | page_idx :: rest =>
      let! (page_info, page_text) :=
        io_process_page pages with_tables page_idx in
      io_process_pages pages with_tables rest
        (result_pages ++ [VDict page_info]) (full_text_parts ++ [page_text])
  end.

Definition io_read_pdf_text_body (file_path : string)
    (page_numbers : option (list Z)) (with_tables : bool)
  : io (gmap string value) :=
  if negb (sys_isabs S file_path) then
    io_ret (failure ("File path must be absolute path, got: " ++ file_path))
  else
    let! found := io_exists file_path in
    if negb found then io_ret (failure ("File not found: " ++ file_path))
    else if negb (endswith (lower file_path) ".pdf") then
      io_ret (failure "File must be a PDF")
    else
      let result :=
        dict [("success", VBool true); ("file_path", VStr file_path);
              ("pages", VList []); ("total_pages", VInt 0);
              ("full_text", VStr "")] in
      io_with_open file_path (fun pdf =>
        let! pages := sys_pages S pdf in
        let result := <["total_pages" := VInt (Z.of_nat (length pages))]> result in
        let pages_to_process := pages_to_process page_numbers (length pages) in
        let! (result_pages, full_text_parts) :=
          io_process_pages pages with_tables pages_to_process [] [] in
        let result := <["pages" := VList result_pages]> result in
        let result :=
          <["full_text" := VStr (str_join blank_line full_text_parts)]> result in
        io_ret result).

(** The tool: the [try] block under the two [except] clauses; it returns
    the dictionary and the state after the call. *)
Definition io_read_pdf_text (file_path : string)
    (page_numbers : option (list Z)) (with_tables : bool)
  : World S -> gmap string value * World S :=
  fun w =>
    let (body, w') := io_read_pdf_text_body file_path page_numbers with_tables w in
    (read_pdf_text_except file_path body, w').

End Calls.

(** An environment seen as a machine without state: each call returns what
    the environment holds. *)
Definition stateless (env : Env) : System :=
  {| World := unit;
     Disk := unit;
     disk := fun w => w;
     Document := PDF;
     PageRef := Page;
     sys_isabs := isabs env;
     sys_exists := fun path w => (path_exists env path, w);
     sys_open := fun path w => (pdfplumber_open env path, w);
     sys_pages := fun pdf w => (pdf_pages pdf, w);
     sys_extract_text := fun page w => (extract_text page, w);
     sys_extract_tables := fun page w => (extract_tables page, w);
     sys_close := fun pdf w => w |}.

(** A machine for examples: the disk holds documents as the texts of their
    pages, and every call is counted in the state. *)
Module Counting.

Record state : Type := {
  files : list (string * list string);
  calls : nat
}.

Definition tick (w : state) : state :=
  {| files := files w; calls := Datatypes.S (calls w) |}.

Definition lookup_file (path : string) (w : state) : option (list string) :=
  match find (fun f => String.eqb path (fst f)) (files w) with
  | Some f => Some (snd f)
  | None => None
  end.

Definition system : System :=
  {| World := state;
     Disk := list (string * list string);
     disk := files;
     Document := list string;
     PageRef := string;
     sys_isabs := Sample.posix_isabs;
     sys_exists := fun path w =>
       (match lookup_file path w with Some _ => true | None => false end, tick w);
     sys_open := fun path w =>
       (match lookup_file path w with
        | Some texts => Ok texts
        | None => Raise (OtherException "[Errno 2] No such file or directory")
        end, tick w);
     sys_pages := fun pdf w => (Ok pdf, tick w);
     sys_extract_text := fun page w => (Ok (Some page), tick w);
     sys_extract_tables := fun page w => (Ok [], tick w);
     sys_close := fun pdf w => tick w |}.

Definition start : state :=
  {| files := [("/docs/report.pdf", ["one"; "two"; "three"])]; calls := 0 |}.

End Counting.

(** A machine whose library is not quiet: a page gives its text once, to
    the first extraction only. *)
Module Draining.

Definition system : System :=
  {| World := nat;
     Disk := unit;
     disk := fun _ => tt;
     Document := unit;
     PageRef := unit;
     sys_isabs := Sample.posix_isabs;
     sys_exists := fun path w => (true, w);
     sys_open := fun path w => (Ok tt, w);
     sys_pages := fun pdf w => (Ok [tt], w);
     sys_extract_text := fun page w =>
       (Ok (match w with O => Some "one" | Datatypes.S _ => None end),
        Datatypes.S w);
     sys_extract_tables := fun page w => (Ok [], w);
     sys_close := fun pdf w => w |}.

End Draining.

(** * Properties *)

(** ** Dictionaries and strings *)

Lemma failure_success (msg : string) :
  failure msg !! "success" = Some (VBool false).
Proof. reflexivity. Qed.

Lemma failure_error (msg : string) :
  failure msg !! "error" = Some (VStr msg).
Proof. reflexivity. Qed.

Lemma failure_dom (msg : string) :
  dom (failure msg) = ({["success"; "error"]} : gset string).
Proof. reflexivity. Qed.

Lemma failure_inj (msg1 msg2 : string) :
  failure msg1 = failure msg2 -> msg1 = msg2.
Proof.
  intros E. apply (f_equal (fun d : gmap string value => d !! "error")) in E.
  rewrite !failure_error in E. congruence.
Qed.

Lemma envelope_ok_failure (msg : string) : envelope_ok (failure msg).
Proof.
  unfold envelope_ok. rewrite failure_success, failure_dom, failure_error.
  split; [reflexivity | eauto].
Qed.

Lemma string_app_cons (x : ascii) (a b : string) :
  String x a ++ b = String x (a ++ b).
Proof. reflexivity. Qed.

Lemma string_app_nil_r (a : string) : a ++ "" = a.
Proof.
  induction a as [|x a IH]; [reflexivity | now rewrite string_app_cons, IH].
Qed.

Lemma string_app_assoc (a b c : string) : (a ++ b) ++ c = a ++ (b ++ c).
Proof.
  induction a as [|x a IH]; [reflexivity | now rewrite !string_app_cons, IH].
Qed.

Lemma contains_infix (pre sub post : string) : contains (pre ++ sub ++ post) sub.
Proof. exists pre, post. reflexivity. Qed.

Lemma contains_suffix (pre sub : string) : contains (pre ++ sub) sub.
Proof.
  exists pre, "". now rewrite string_app_nil_r.
Qed.

(** ** The exception handlers *)

Lemma try_except_converted (path : string) (body : result (gmap string value))
    (perm_prefix generic_prefix : string) :
  converted path body
    (try_except body
       (fun msg => failure (perm_prefix ++ path ++ ". Error: " ++ msg))
       (fun msg => failure (generic_prefix ++ msg))).
Proof.
  destruct body as [d | [sysmsg | sysmsg]]; cbn [converted try_except].
  - reflexivity.
  - eexists; split; [reflexivity | split].
    + apply contains_infix.
    + rewrite <- (string_app_assoc path), <- (string_app_assoc perm_prefix).
      apply contains_suffix.
  - eexists; split; [reflexivity | apply contains_suffix].
Qed.

Lemma try_except_envelope (body : result (gmap string value))
    (on_permission_error on_exception : string -> string) :
  (forall d, body = Ok d -> envelope_ok d) ->
  envelope_ok
    (try_except body (fun msg => failure (on_permission_error msg))
       (fun msg => failure (on_exception msg))).
Proof.
  intros H. destruct body as [d | [msg | msg]]; simpl;
    [now apply H | apply envelope_ok_failure ..].
Qed.

(** ** The page loop *)

Lemma collect_Forall2 {A B : Type} (f : A -> result B) (l : list A) (ys : list B) :
  collect f l = Ok ys -> Forall2 (fun x y => f x = Ok y) l ys.
Proof.
  revert ys. induction l as [|x l IH]; simpl; intros ys E.
  - injection E as <-. constructor.
  - destruct (f x) as [y|e] eqn:Ex; simpl in E; [|discriminate].
    destruct (collect f l) as [ys'|e] eqn:El; simpl in E; [|discriminate].
    injection E as <-. constructor; [exact Ex | now apply IH].
Qed.

(** The loop appends, in order, what the loop body gives for each index. *)
Lemma process_pages_collect (pages : list Page) (with_tables : bool)
    (idxs : list Z) (result_pages : list value) (parts : list string) :
  process_pages pages with_tables idxs result_pages parts =
  let* items := collect (process_page pages with_tables) idxs in
  Ok ((result_pages ++ map (fun item => VDict (fst item)) items)%list,
      (parts ++ map snd items)%list).
Proof.
  revert result_pages parts.
  induction idxs as [|idx idxs IH]; intros result_pages parts; simpl.
  - now rewrite !app_nil_r.
  - destruct (process_page pages with_tables idx) as [[info text]|e]; simpl;
      [|reflexivity].
    rewrite IH.
    destruct (collect (process_page pages with_tables) idxs) as [items|e]; simpl;
      [|reflexivity].
    now rewrite <- !app_assoc.
Qed.

Lemma py_index_in_range {A : Type} (l : list A) (i : Z) (x : A) :
  (0 <= i)%Z -> py_index l i = Ok x -> l !! Z.to_nat i = Some x.
Proof.
  intros Hi. unfold py_index.
  destruct (i <? 0)%Z eqn:Hneg; [lia|].
  destruct ((0 <=? i)%Z && (i <? Z.of_nat (length l))%Z); [|discriminate].
  destruct (l !! Z.to_nat i); [congruence | discriminate].
Qed.

Lemma py_index_total {A : Type} (l : list A) (i : Z) :
  (0 <= i < Z.of_nat (length l))%Z -> exists x, py_index l i = Ok x.
Proof.
  intros Hi. unfold py_index.
  destruct (i <? 0)%Z eqn:Hneg; [lia|].
  replace ((0 <=? i)%Z && (i <? Z.of_nat (length l))%Z) with true
    by (symmetry; apply andb_true_iff; split; lia).
  destruct (l !! Z.to_nat i) as [x|] eqn:E; [eauto|].
  apply lookup_ge_None in E. lia.
Qed.

(** What one run of the loop body records. *)
Lemma process_page_ok (pages : list Page) (with_tables : bool) (idx : Z)
    (info : gmap string value) (text : string) :
  process_page pages with_tables idx = Ok (info, text) ->
  page_number_of (VDict info) = Some (idx + 1)%Z /\
  text_of (VDict info) = Some text /\
  ((0 <= idx)%Z -> text = text_of_page_number pages (idx + 1)).
Proof.
  unfold process_page. intros E.
  destruct (py_index pages idx) as [page|e] eqn:Ei; simpl in E; [|discriminate].
  destruct (extract_text page) as [tx|e] eqn:Et; simpl in E; [|discriminate].
  assert (Htext : (0 <= idx)%Z -> or_empty tx = text_of_page_number pages (idx + 1)).
  { intros Hidx. unfold text_of_page_number.
    replace (idx + 1 - 1)%Z with idx by lia.
    rewrite (py_index_in_range _ _ _ Hidx Ei), Et. reflexivity. }
  destruct with_tables; [destruct (extract_tables page)|];
    injection E as <- <-; (split; [reflexivity | split; [reflexivity | exact Htext]]).
Qed.

(** ** Page selection *)

Lemma pages_to_process_in_range (page_numbers : option (list Z)) (n : nat) :
  Forall (fun idx => (0 <= idx < Z.of_nat n)%Z) (pages_to_process page_numbers n).
Proof.
  apply Forall_forall. intros idx Hin.
  destruct page_numbers as [l|]; simpl in Hin.
  - unfold selected_indices in Hin.
    apply list_elem_of_fmap in Hin as (p & -> & Hp).
    apply list_elem_of_filter in Hp as [Hp _]. lia.
  - unfold py_range in Hin.
    apply list_elem_of_fmap in Hin as (i & -> & Hi).
    apply elem_of_seq in Hi. lia.
Qed.

Lemma pages_to_process_numbers (page_numbers : option (list Z)) (n : nat) :
  map (fun idx => (idx + 1)%Z) (pages_to_process page_numbers n)
  = kept_numbers page_numbers n.
Proof.
  destruct page_numbers as [l|]; simpl.
  - unfold selected_indices. rewrite map_map.
    rewrite <- (map_id (filter _ l)) at 2.
    apply map_ext. intros p. lia.
  - unfold py_range. rewrite map_map, <- seq_shift, map_map.
    apply map_ext. intros i. lia.
Qed.

Section ReadPdfText.

Variable env : Env.
Variable file_path : string.
Variable page_numbers : option (list Z).
Variable with_tables : bool.

(** A successful call went through validation, opened the document and
    ran the loop body on every selected index. *)
Lemma read_pdf_text_success :
  read_pdf_text env file_path page_numbers with_tables !! "success"
    = Some (VBool true) ->
  exists pdf pages items,
    isabs env file_path = true /\
    path_exists env file_path = true /\
    endswith (lower file_path) ".pdf" = true /\
    pdfplumber_open env file_path = Ok pdf /\
    pdf_pages pdf = Ok pages /\
    collect (process_page pages with_tables)
      (pages_to_process page_numbers (length pages)) = Ok items /\
    read_pdf_text env file_path page_numbers with_tables
      = read_result file_path (length pages)
          (map (fun item => VDict (fst item)) items)
          (str_join blank_line (map snd items)).
Proof.
  unfold read_pdf_text, read_pdf_text_body, read_pdf_text_except.
  destruct (isabs env file_path); [|discriminate].
  destruct (path_exists env file_path); [|discriminate].
  destruct (endswith (lower file_path) ".pdf"); [|discriminate].
  cbn [negb].
  destruct (pdfplumber_open env file_path) as [pdf|[m|m]]; [|discriminate..].
  cbn [rbind].
  destruct (pdf_pages pdf) as [pages|[m|m]] eqn:Hpages; [|discriminate..].
  cbn [rbind]. rewrite process_pages_collect.
  destruct (collect _ _) as [items|[m|m]] eqn:Hloop; [|discriminate..].
  intros _. exists pdf, pages, items.
  repeat (split; [first [reflexivity | eassumption]|]). reflexivity.
Qed.

(** Conversely, when those steps raise nothing the call returns the
    success form. *)
Lemma read_pdf_text_run (pdf : PDF) (pages : list Page)
    (items : list (gmap string value * string)) :
  isabs env file_path = true ->
  path_exists env file_path = true ->
  endswith (lower file_path) ".pdf" = true ->
  pdfplumber_open env file_path = Ok pdf ->
  pdf_pages pdf = Ok pages ->
  collect (process_page pages with_tables)
    (pages_to_process page_numbers (length pages)) = Ok items ->
  read_pdf_text env file_path page_numbers with_tables
    = read_result file_path (length pages)
        (map (fun item => VDict (fst item)) items)
        (str_join blank_line (map snd items)).
Proof.
  intros Habs Hex Hpdf Hopen Hpages Hloop.
  unfold read_pdf_text, read_pdf_text_body, read_pdf_text_except.
  rewrite Habs, Hex, Hpdf. cbn [negb]. rewrite Hopen. cbn [rbind].
  rewrite Hpages. cbn [rbind]. rewrite process_pages_collect, Hloop.
  reflexivity.
Qed.

(** What the loop recorded, item by item. *)
Lemma items_page_numbers (pages : list Page) (idxs : list Z)
    (items : list (gmap string value * string)) :
  collect (process_page pages with_tables) idxs = Ok items ->
  map page_number_of (map (fun item => VDict (fst item)) items)
    = map Some (map (fun idx => (idx + 1)%Z) idxs).
Proof.
  intros E. apply collect_Forall2 in E.
  induction E as [|idx [info text] idxs items Hx _ IH]; [reflexivity|].
  apply process_page_ok in Hx as (Hn & _ & _).
  cbn [map fst]. now rewrite Hn, IH.
Qed.

Lemma items_texts (pages : list Page) (idxs : list Z)
    (items : list (gmap string value * string)) :
  collect (process_page pages with_tables) idxs = Ok items ->
  map text_of (map (fun item => VDict (fst item)) items)
    = map Some (map snd items).
Proof.
  intros E. apply collect_Forall2 in E.
  induction E as [|idx [info text] idxs items Hx _ IH]; [reflexivity|].
  apply process_page_ok in Hx as (_ & Ht & _).
  cbn [map fst snd]. now rewrite Ht, IH.
Qed.

Lemma items_page_texts (pages : list Page) (idxs : list Z)
    (items : list (gmap string value * string)) :
  Forall (fun idx => (0 <= idx)%Z) idxs ->
  collect (process_page pages with_tables) idxs = Ok items ->
  map snd items
    = map (text_of_page_number pages) (map (fun idx => (idx + 1)%Z) idxs).
Proof.
  intros Hge E. apply collect_Forall2 in E.
  induction E as [|idx [info text] idxs items Hx _ IH]; [reflexivity|].
  apply Forall_cons in Hge as [Hidx Hge].
  apply process_page_ok in Hx as (_ & _ & Ht).
  cbn [map snd]. now rewrite (Ht Hidx), (IH Hge).
Qed.

End ReadPdfText.

Lemma count_occ_filter_in_range (n : Z) (l : list Z) (p : Z) :
  (0 < p)%Z /\ (p <= n)%Z ->
  count_occ Z.eq_dec (filter (fun q => (0 < q)%Z /\ (q <= n)%Z) l) p
  = count_occ Z.eq_dec l p.
Proof.
  intros Hp. induction l as [|q l IH]; [reflexivity|].
  rewrite filter_cons. destruct (decide ((0 < q)%Z /\ (q <= n)%Z)) as [Hq|Hq].
  - cbn [count_occ]. destruct (Z.eq_dec q p); now rewrite IH.
  - cbn [count_occ]. destruct (Z.eq_dec q p) as [->|]; [contradiction | exact IH].
Qed.

(** ** read_pdf_text: the claims *)

(** C5. Validation in [read_pdf_text] short-circuits in the order absolute,
    exists, [.pdf] suffix: a relative path gets the not-absolute message
    whether or not it exists; an absolute path that does not exist gets the
    not-found message; an absolute existing path whose lower-cased name does
    not end in [.pdf] gets "File must be a PDF". *)
Theorem read_pdf_text_validation_order (env : Env) (file_path : string)
    (page_numbers : option (list Z)) (with_tables : bool) :
  (isabs env file_path = false ->
   read_pdf_text env file_path page_numbers with_tables
   = failure ("File path must be absolute path, got: " ++ file_path)) /\
  (isabs env file_path = true -> path_exists env file_path = false ->
   read_pdf_text env file_path page_numbers with_tables
   = failure ("File not found: " ++ file_path)) /\
  (isabs env file_path = true -> path_exists env file_path = true ->
   endswith (lower file_path) ".pdf" = false ->
   read_pdf_text env file_path page_numbers with_tables
   = failure "File must be a PDF").
Proof.
  unfold read_pdf_text, read_pdf_text_body, read_pdf_text_except.
  split; [|split].
  - intros ->. reflexivity.
  - intros -> ->. reflexivity.
  - intros -> -> ->. reflexivity.
Qed.

Lemma read_pdf_text_validation_order_witness :
  isabs Sample.env "docs/report.pdf" = false /\
  path_exists Sample.env "docs/report.pdf" = true /\
  read_pdf_text Sample.env "docs/report.pdf" None false
  = failure "File path must be absolute path, got: docs/report.pdf" /\
  read_pdf_text Sample.env "/docs/gone.pdf" None false
  = failure "File not found: /docs/gone.pdf" /\
  read_pdf_text Sample.env "/docs/notes.txt" None false
  = failure "File must be a PDF".
Proof.
  destruct (read_pdf_text_validation_order Sample.env "docs/report.pdf" None false)
    as (Hrel & _ & _).
  destruct (read_pdf_text_validation_order Sample.env "/docs/gone.pdf" None false)
    as (_ & Hgone & _).
  destruct (read_pdf_text_validation_order Sample.env "/docs/notes.txt" None false)
    as (_ & _ & Htxt).
  split; [reflexivity|]. split; [reflexivity|].
  split; [exact (Hrel eq_refl)|].
  split; [exact (Hgone eq_refl eq_refl) | exact (Htxt eq_refl eq_refl eq_refl)].
Defined.

(** C2. In a successful [read_pdf_text] call on a document of [n] pages the
    indices processed are [0 .. n-1] ascending when [page_numbers] is absent,
    and otherwise the requested numbers [p] with [0 < p <= n], less one, in
    the caller's order, the others being dropped; the result has one page
    dictionary per kept number, in that order, and its [page_number] is that
    1-based number of the document. *)
Theorem read_pdf_text_page_selection (env : Env) (file_path : string)
    (page_numbers : option (list Z)) (with_tables : bool) :
  read_pdf_text env file_path page_numbers with_tables !! "success"
    = Some (VBool true) ->
  exists pdf pages result_pages,
    pdfplumber_open env file_path = Ok pdf /\
    pdf_pages pdf = Ok pages /\
    read_pdf_text env file_path page_numbers with_tables !! "total_pages"
      = Some (VInt (Z.of_nat (length pages))) /\
    pages_to_process page_numbers (length pages)
      = match page_numbers with
        | None => map Z.of_nat (seq 0 (length pages))
        | Some l =>
            map (fun p => (p - 1)%Z)
              (filter (fun p => (0 < p)%Z /\ (p <= Z.of_nat (length pages))%Z) l)
        end /\
    read_pdf_text env file_path page_numbers with_tables !! "pages"
      = Some (VList result_pages) /\
    map page_number_of result_pages
      = map Some (kept_numbers page_numbers (length pages)).
Proof.
  intros Hs.
  destruct (read_pdf_text_success _ _ _ _ Hs)
    as (pdf & pages & items & _ & _ & _ & Hopen & Hpages & Hloop & ->).
  exists pdf, pages, (map (fun item => VDict (fst item)) items).
  split; [exact Hopen|]. split; [exact Hpages|]. split; [reflexivity|].
  split; [destruct page_numbers; reflexivity|].
  split; [reflexivity|].
  rewrite (items_page_numbers _ _ _ _ Hloop).
  now rewrite pages_to_process_numbers.
Qed.

Lemma read_pdf_text_page_selection_witness :
  read_pdf_text Sample.env "/docs/report.pdf" (Some [3; 1; 0; 99]%Z) false
    !! "success" = Some (VBool true) /\
  exists result_pages,
    read_pdf_text Sample.env "/docs/report.pdf" (Some [3; 1; 0; 99]%Z) false
      !! "pages" = Some (VList result_pages) /\
    map page_number_of result_pages = [Some 3%Z; Some 1%Z].
Proof.
  split; [reflexivity|].
  destruct (read_pdf_text_page_selection Sample.env "/docs/report.pdf"
              (Some [3; 1; 0; 99]%Z) false eq_refl)
    as (pdf & pages & result_pages & Hopen & Hpages & _ & _ & Hres & Hnum).
  injection Hopen as <-. injection Hpages as <-.
  exists result_pages. split; [exact Hres | exact Hnum].
Defined.

(** The join of the source is the library's [String.concat]. *)
Lemma str_join_concat (sep : string) (parts : list string) :
  str_join sep parts = String.concat sep parts.
Proof.
  induction parts as [|x [|y rest] IH]; [reflexivity..|].
  change (str_join sep (x :: y :: rest))
    with (x ++ sep ++ str_join sep (y :: rest)).
  now rewrite IH.
Qed.

(** C3. In a successful [read_pdf_text] call [full_text] is the texts of the
    page dictionaries of [pages], in the order of that list, with two
    newline characters between consecutive texts; and a call that passes
    validation and opens a document, none of whose pages is selected,
    returns the success form with an empty [pages] list and an empty
    [full_text]. *)
Theorem read_pdf_text_full_text (env : Env) (file_path : string)
    (page_numbers : option (list Z)) (with_tables : bool) :
  (read_pdf_text env file_path page_numbers with_tables !! "success"
     = Some (VBool true) ->
   exists result_pages texts,
     read_pdf_text env file_path page_numbers with_tables !! "pages"
       = Some (VList result_pages) /\
     map text_of result_pages = map Some texts /\
     read_pdf_text env file_path page_numbers with_tables !! "full_text"
       = Some (VStr (String.concat double_newline texts))) /\
  (forall pdf pages,
     isabs env file_path = true ->
     path_exists env file_path = true ->
     endswith (lower file_path) ".pdf" = true ->
     pdfplumber_open env file_path = Ok pdf ->
     pdf_pages pdf = Ok pages ->
     kept_numbers page_numbers (length pages) = [] ->
     read_pdf_text env file_path page_numbers with_tables
     = dict [("success", VBool true); ("file_path", VStr file_path);
             ("pages", VList []);
             ("total_pages", VInt (Z.of_nat (length pages)));
             ("full_text", VStr "")]).
Proof.
  split.
  - intros Hs.
    destruct (read_pdf_text_success _ _ _ _ Hs)
      as (pdf & pages & items & _ & _ & _ & _ & _ & Hloop & ->).
    exists (map (fun item => VDict (fst item)) items), (map snd items).
    split; [reflexivity|]. split; [exact (items_texts _ _ _ _ Hloop)|].
    rewrite <- (str_join_concat double_newline (map snd items)). reflexivity.
  - intros pdf pages Habs Hex Hpdf Hopen Hpages Hnone.
    assert (Hidx : pages_to_process page_numbers (length pages) = []).
    { apply (f_equal (@length Z)) in Hnone.
      rewrite <- pages_to_process_numbers, length_map in Hnone.
      now apply length_zero_iff_nil. }
    rewrite (read_pdf_text_run env file_path page_numbers with_tables
               pdf pages [] Habs Hex Hpdf Hopen Hpages);
      [reflexivity | now rewrite Hidx].
Qed.

Lemma read_pdf_text_full_text_witness :
  (exists result_pages texts,
     read_pdf_text Sample.env "/docs/report.pdf" (Some [3; 1]%Z) false !! "pages"
       = Some (VList result_pages) /\
     map text_of result_pages = map Some texts /\
     read_pdf_text Sample.env "/docs/report.pdf" (Some [3; 1]%Z) false
       !! "full_text" = Some (VStr (String.concat double_newline texts))) /\
  read_pdf_text Sample.env "/docs/report.pdf" (Some [3; 1]%Z) false
    !! "full_text" = Some (VStr ("three" ++ String "010" (String "010" "one"))) /\
  read_pdf_text Sample.env "/docs/report.pdf" (Some [0; 99]%Z) false
  = dict [("success", VBool true); ("file_path", VStr "/docs/report.pdf");
          ("pages", VList []); ("total_pages", VInt 5); ("full_text", VStr "")].
Proof.
  split; [|split].
  - exact (proj1 (read_pdf_text_full_text Sample.env "/docs/report.pdf"
                    (Some [3; 1]%Z) false) eq_refl).
  - reflexivity.
  - exact (proj2 (read_pdf_text_full_text Sample.env "/docs/report.pdf"
                    (Some [0; 99]%Z) false)
             Sample.report _ eq_refl eq_refl eq_refl eq_refl eq_refl eq_refl).
Defined.

(** C9. A valid page number that occurs several times in [page_numbers]
    gives one page dictionary per occurrence: the page numbers of the result
    are the in-range requested numbers in the caller's order, each valid
    number as often as it was requested, and [full_text] is the text of
    the page of each of them, once per occurrence and in that order, with
    two newline characters between consecutive texts. *)
Theorem read_pdf_text_duplicates (env : Env) (file_path : string)
    (requested : list Z) (with_tables : bool) :
  read_pdf_text env file_path (Some requested) with_tables !! "success"
    = Some (VBool true) ->
  exists pdf pages result_pages numbers,
    pdfplumber_open env file_path = Ok pdf /\
    pdf_pages pdf = Ok pages /\
    read_pdf_text env file_path (Some requested) with_tables !! "pages"
      = Some (VList result_pages) /\
    map page_number_of result_pages = map Some numbers /\
    numbers
      = filter (fun p => (0 < p)%Z /\ (p <= Z.of_nat (length pages))%Z) requested /\
    (forall p, (0 < p)%Z /\ (p <= Z.of_nat (length pages))%Z ->
       count_occ Z.eq_dec numbers p = count_occ Z.eq_dec requested p) /\
    read_pdf_text env file_path (Some requested) with_tables !! "full_text"
      = Some (VStr (String.concat double_newline
                      (map (text_of_page_number pages) numbers))).
Proof.
  intros Hs.
  destruct (read_pdf_text_success _ _ _ _ Hs)
    as (pdf & pages & items & _ & _ & _ & Hopen & Hpages & Hloop & ->).
  exists pdf, pages, (map (fun item => VDict (fst item)) items),
    (kept_numbers (Some requested) (length pages)).
  split; [exact Hopen|]. split; [exact Hpages|]. split; [reflexivity|].
  split.
  { rewrite (items_page_numbers _ _ _ _ Hloop).
    now rewrite pages_to_process_numbers. }
  split; [reflexivity|].
  split; [intros p Hp; now apply count_occ_filter_in_range|].
  rewrite <- pages_to_process_numbers.
  rewrite <- (items_page_texts with_tables pages _ items); [| |exact Hloop].
  { rewrite <- (str_join_concat double_newline (map snd items)). reflexivity. }
  eapply Forall_impl; [apply pages_to_process_in_range|].
  simpl. intros idx Hidx. lia.
Qed.

Lemma read_pdf_text_duplicates_witness :
  exists result_pages,
    read_pdf_text Sample.env "/docs/report.pdf" (Some [2; 7; 2; 4; 2]%Z) true
      !! "pages" = Some (VList result_pages) /\
    map page_number_of result_pages = [Some 2; Some 2; Some 4; Some 2]%Z /\
    read_pdf_text Sample.env "/docs/report.pdf" (Some [2; 7; 2; 4; 2]%Z) true
      !! "full_text"
      = Some (VStr ("two" ++ String "010" (String "010"
                   ("two" ++ String "010" (String "010"
                   ("four" ++ String "010" (String "010" "two"))))))).
Proof.
  destruct (read_pdf_text_duplicates Sample.env "/docs/report.pdf"
              [2; 7; 2; 4; 2]%Z true eq_refl)
    as (pdf & pages & result_pages & numbers
        & Hopen & Hpages & Hres & Hnum & -> & _ & Htext).
  injection Hopen as <-. injection Hpages as <-.
  exists result_pages.
  split; [exact Hres|]. split; [exact Hnum | exact Htext].
Defined.

(** ** read_pdf_text called twice *)

Section Repeatable.

Variable S : System.
Hypothesis Hreads : reads_only S.

Lemma quiet_ret {A : Type} (a : A) : quiet (io_ret S a).
Proof. split; [intros w | intros w1 w2 _]; reflexivity. Qed.

Lemma quiet_lift {A : Type} (r : result A) : quiet (io_lift S r).
Proof. split; [intros w | intros w1 w2 _]; reflexivity. Qed.

(** Quiet computations compose: the second starts on the same filesystem
    in both runs because the first left it alone. *)
Lemma quiet_bind {A B : Type} (m : io S A) (k : A -> io S B) :
  quiet m -> (forall a, quiet (k a)) -> quiet (io_bind S m k).
Proof.
  intros [Hdisk Hsame] Hk. unfold io_bind. split.
  - intros w. specialize (Hdisk w).
    destruct (m w) as [[a|e] w']; cbn [snd] in Hdisk |- *; [|exact Hdisk].
    now rewrite (proj1 (Hk a) w').
  - intros w1 w2 Hw.
    pose proof (Hsame w1 w2 Hw) as Hout.
    pose proof (Hdisk w1) as H1. pose proof (Hdisk w2) as H2.
    destruct (m w1) as [[a1|e1] w1'], (m w2) as [[a2|e2] w2'];
      cbn [fst snd] in Hout, H1, H2 |- *; try discriminate Hout.
    + injection Hout as ->. apply (proj2 (Hk a2)). congruence.
    + now injection Hout as ->.
Qed.

Lemma quiet_exists (path : string) : quiet (io_exists S path).
Proof.
  destruct (exists_quiet S Hreads path) as [Hdisk Hsame].
  unfold io_exists. split.
  - intros w. specialize (Hdisk w). now destruct (sys_exists S path w).
  - intros w1 w2 Hw. specialize (Hsame w1 w2 Hw).
    destruct (sys_exists S path w1), (sys_exists S path w2).
    cbn [fst] in Hsame |- *. now rewrite Hsame.
Qed.

Lemma quiet_with_open {A : Type} (path : string) (body : Document S -> io S A) :
  (forall pdf, quiet (body pdf)) -> quiet (io_with_open S path body).
Proof.
  intros Hbody. destruct (open_quiet S Hreads path) as [Hdisk Hsame].
  unfold io_with_open. split.
  - intros w. specialize (Hdisk w).
    destruct (sys_open S path w) as [[pdf|e] w1]; cbn [snd] in Hdisk |- *;
      [|exact Hdisk].
    pose proof (proj1 (Hbody pdf) w1) as Hb.
    destruct (body pdf w1) as [r w2]. cbn [snd] in Hb |- *.
    rewrite (close_disk S Hreads). congruence.
  - intros w1 w2 Hw.
    pose proof (Hsame w1 w2 Hw) as Hout.
    pose proof (Hdisk w1) as H1. pose proof (Hdisk w2) as H2.
    destruct (sys_open S path w1) as [[pdf1|e1] w1'],
      (sys_open S path w2) as [[pdf2|e2] w2'];
      cbn [fst snd] in Hout, H1, H2 |- *; try discriminate Hout.
    + injection Hout as ->.
      assert (Hb : fst (body pdf2 w1') = fst (body pdf2 w2'))
        by (apply (proj2 (Hbody pdf2)); congruence).
      destruct (body pdf2 w1'), (body pdf2 w2'). exact Hb.
    + now injection Hout as ->.
Qed.

Lemma quiet_page_tables (page : PageRef S) (page_info : gmap string value) :
  quiet (io_page_tables S page page_info).
Proof.
  destruct (extract_tables_quiet S Hreads page) as [Hdisk Hsame].
  unfold io_page_tables. split.
  - intros w. specialize (Hdisk w).
    now destruct (sys_extract_tables S page w) as [[tables|e] w'].
  - intros w1 w2 Hw. specialize (Hsame w1 w2 Hw).
    destruct (sys_extract_tables S page w1) as [[t1|e1] w1'],
      (sys_extract_tables S page w2) as [[t2|e2] w2'];
      cbn [fst] in Hsame |- *; congruence.
Qed.

Lemma quiet_process_page (pages : list (PageRef S)) (with_tables : bool)
    (page_idx : Z) :
  quiet (io_process_page S pages with_tables page_idx).
Proof.
  unfold io_process_page.
  apply quiet_bind; [apply quiet_lift|]. intros page.
  apply quiet_bind; [apply (extract_text_quiet S Hreads)|]. intros text.
  apply quiet_bind; [|intros info; apply quiet_ret].
  destruct with_tables; [apply quiet_page_tables | apply quiet_ret].
Qed.

Lemma quiet_process_pages (pages : list (PageRef S)) (with_tables : bool)
    (pages_to_process : list Z)
    (result_pages : list value) (full_text_parts : list string) :
  quiet (io_process_pages S pages with_tables pages_to_process
           result_pages full_text_parts).
Proof.
  revert result_pages full_text_parts.
  induction pages_to_process as [|page_idx rest IH];
    intros result_pages full_text_parts; cbn [io_process_pages].
  - apply quiet_ret.
  - apply quiet_bind; [apply quiet_process_page|]. intros [page_info page_text].
    apply IH.
Qed.

Lemma quiet_read_pdf_text_body (file_path : string)
    (page_numbers : option (list Z)) (with_tables : bool) :
  quiet (io_read_pdf_text_body S file_path page_numbers with_tables).
Proof.
  unfold io_read_pdf_text_body.
  destruct (negb (sys_isabs S file_path)); [apply quiet_ret|].
  apply quiet_bind; [apply quiet_exists|]. intros found.
  destruct (negb found); [apply quiet_ret|].
  destruct (negb (endswith (lower file_path) ".pdf")); [apply quiet_ret|].
  apply quiet_with_open. intros pdf.
  apply quiet_bind; [apply (pages_quiet S Hreads)|]. intros pages.
  apply quiet_bind; [apply quiet_process_pages|].
  intros [result_pages full_text_parts]. apply quiet_ret.
Qed.

Lemma quiet_read_pdf_text (file_path : string)
    (page_numbers : option (list Z)) (with_tables : bool) :
  quiet (io_read_pdf_text S file_path page_numbers with_tables).
Proof.
  destruct (quiet_read_pdf_text_body file_path page_numbers with_tables)
    as [Hdisk Hsame].
  unfold io_read_pdf_text. split.
  - intros w. specialize (Hdisk w).
    now destruct (io_read_pdf_text_body S file_path page_numbers with_tables w).
  - intros w1 w2 Hw. specialize (Hsame w1 w2 Hw).
    destruct (io_read_pdf_text_body S file_path page_numbers with_tables w1),
      (io_read_pdf_text_body S file_path page_numbers with_tables w2).
    cbn [fst] in Hsame |- *. now rewrite Hsame.
Qed.

End Repeatable.

Ltac unfold_stateless :=
  cbv beta iota delta
    [stateless World Disk disk Document PageRef sys_isabs sys_exists sys_open
     sys_pages sys_extract_text sys_extract_tables sys_close].

(** The function of an environment used so far is the sequence of calls
    on the machine without state. *)
Lemma io_process_page_stateless (env : Env) (pages : list Page)
    (with_tables : bool) (page_idx : Z) (w : unit) :
  io_process_page (stateless env) pages with_tables page_idx w
  = (process_page pages with_tables page_idx, w).
Proof.
  unfold io_process_page, process_page, io_bind, io_lift, io_page_tables, io_ret.
  unfold_stateless.
  destruct (py_index pages page_idx) as [page|e]; cbn [rbind]; [|reflexivity].
  destruct (extract_text page) as [text|e]; cbn [rbind]; [|reflexivity].
  destruct with_tables; [destruct (extract_tables page)|]; reflexivity.
Qed.

Lemma io_process_pages_stateless (env : Env) (pages : list Page)
    (with_tables : bool) (pages_to_process : list Z)
    (result_pages : list value) (full_text_parts : list string) (w : unit) :
  io_process_pages (stateless env) pages with_tables pages_to_process
    result_pages full_text_parts w
  = (process_pages pages with_tables pages_to_process
       result_pages full_text_parts, w).
Proof.
  revert result_pages full_text_parts.
  induction pages_to_process as [|page_idx rest IH];
    intros result_pages full_text_parts; [reflexivity|].
  cbn [io_process_pages process_pages]. unfold io_bind.
  rewrite io_process_page_stateless.
  destruct (process_page pages with_tables page_idx) as [[info text]|e];
    cbn [rbind]; [apply IH | reflexivity].
Qed.

Lemma io_read_pdf_text_stateless (env : Env) (file_path : string)
    (page_numbers : option (list Z)) (with_tables : bool) (w : unit) :
  io_read_pdf_text (stateless env) file_path page_numbers with_tables w
  = (read_pdf_text env file_path page_numbers with_tables, w).
Proof.
  unfold io_read_pdf_text, io_read_pdf_text_body, read_pdf_text,
    read_pdf_text_body, io_bind, io_exists, io_with_open, io_ret.
  pose proof (io_process_pages_stateless env) as Hloop. revert Hloop.
  unfold_stateless. intros Hloop.
  destruct (isabs env file_path); cbn [negb]; [|reflexivity].
  destruct (path_exists env file_path); cbn [negb]; [|reflexivity].
  destruct (endswith (lower file_path) ".pdf"); cbn [negb]; [|reflexivity].
  destruct (pdfplumber_open env file_path) as [pdf|e]; cbn [rbind]; [|reflexivity].
  destruct (pdf_pages pdf) as [pages|e]; cbn [rbind]; [|reflexivity].
  rewrite Hloop.
  destruct (process_pages pages with_tables _ [] []) as [[result_pages parts]|e];
    reflexivity.
Qed.

(** C10. On a machine whose calls only read the filesystem (each call may
    change other state, but leaves the filesystem as it was and has its
    outcome decided by the filesystem), a call of [read_pdf_text] leaves the
    filesystem as it was, a second call with the same arguments right after
    the first returns the same dictionary, so the same [full_text] and
    [pages], and so does a call from any state with the same filesystem. *)
Theorem read_pdf_text_repeatable (S : System) (file_path : string)
    (page_numbers : option (list Z)) (with_tables : bool) (w : World S) :
  reads_only S ->
  let call := io_read_pdf_text S file_path page_numbers with_tables in
  disk S (snd (call w)) = disk S w /\
  fst (call (snd (call w))) = fst (call w) /\
  (forall w', disk S w' = disk S w -> fst (call w') = fst (call w)).
Proof.
  intros Hreads call.
  destruct (quiet_read_pdf_text S Hreads file_path page_numbers with_tables)
    as [Hdisk Hsame].
  split; [apply Hdisk|]. split; [apply Hsame, Hdisk | exact (fun w' => Hsame w' w)].
Qed.

Lemma counting_reads_only : reads_only Counting.system.
Proof.
  split.
  - intros path. split; [reflexivity|]. intros w1 w2 Hw.
    cbn in Hw |- *. unfold Counting.lookup_file. now rewrite Hw.
  - intros path. split; [reflexivity|]. intros w1 w2 Hw.
    cbn in Hw |- *. unfold Counting.lookup_file. now rewrite Hw.
  - intros pdf. split; reflexivity.
  - intros page. split; reflexivity.
  - intros page. split; reflexivity.
  - reflexivity.
Qed.

Lemma read_pdf_text_repeatable_witness :
  let call := io_read_pdf_text Counting.system "/docs/report.pdf"
                (Some [3; 1]%Z) true in
  Counting.calls (snd (call Counting.start)) = 8 /\
  Counting.files (snd (call Counting.start)) = Counting.files Counting.start /\
  fst (call (snd (call Counting.start))) = fst (call Counting.start) /\
  fst (call Counting.start) !! "full_text"
  = Some (VStr ("three" ++ String "010" (String "010" "one"))).
Proof.
  intros call.
  destruct (read_pdf_text_repeatable Counting.system "/docs/report.pdf"
              (Some [3; 1]%Z) true Counting.start counting_reads_only)
    as (Hdisk & Hagain & _).
  split; [reflexivity|]. split; [exact Hdisk|]. split; [exact Hagain | reflexivity].
Defined.

(** Without the assumption the two calls can differ: on the draining
    machine the second call finds no text. *)
Example draining_not_repeatable :
  let call := io_read_pdf_text Draining.system "/docs/report.pdf" None false in
  fst (call 0) !! "full_text" = Some (VStr "one") /\
  fst (call (snd (call 0))) !! "full_text" = Some (VStr "") /\
  ~ reads_only Draining.system.
Proof.
  split; [reflexivity|]. split; [reflexivity|].
  intros Hreads.
  destruct (extract_text_quiet _ Hreads tt) as [_ Hsame].
  discriminate (Hsame 0 1 eq_refl).
Qed.

(** A document that may not be read: the handler of [get_pdf_info] turns the
    [PermissionError] of [open] into the error form. *)
Example get_pdf_info_locked :
  get_pdf_info Sample.env "/docs/locked.pdf"
  = failure ("Permission denied accessing file: /docs/locked.pdf. "
             ++ "Error: [Errno 13] Permission denied").
Proof. reflexivity. Qed.

(** A page whose table extraction fails is still returned, with the error
    recorded on the page. *)
Example process_page_table_error :
  process_page
    [{| extract_text := Ok None;
        extract_tables := Raise (OtherException "bad table") |}] true 0
  = Ok (dict [("page_number", VInt 1); ("text", VStr "");
              ("tables", VList []);
              ("table_extraction_error", VStr "bad table")], "").
Proof. reflexivity. Qed.

(** ** The result envelope *)

Lemma read_pdf_text_body_envelope (env : Env) (file_path : string)
    (page_numbers : option (list Z)) (with_tables : bool) (d : gmap string value) :
  read_pdf_text_body env file_path page_numbers with_tables = Ok d ->
  envelope_ok d.
Proof.
  unfold read_pdf_text_body.
  destruct (isabs env file_path); cbn [negb];
    [|intros [= <-]; apply envelope_ok_failure].
  destruct (path_exists env file_path); cbn [negb];
    [|intros [= <-]; apply envelope_ok_failure].
  destruct (endswith (lower file_path) ".pdf"); cbn [negb];
    [|intros [= <-]; apply envelope_ok_failure].
  destruct (pdfplumber_open env file_path) as [pdf|e]; [|discriminate].
  cbn [rbind]. destruct (pdf_pages pdf) as [pages|e]; [|discriminate].
  cbn [rbind]. rewrite process_pages_collect.
  destruct (collect _ _) as [items|e]; [|discriminate].
  intros [= <-]. reflexivity.
Qed.

Lemma get_pdf_info_read_envelope (env : Env) (file_path : string)
    (d : gmap string value) :
  get_pdf_info_read env file_path = Ok d -> envelope_ok d.
Proof.
  unfold get_pdf_info_read.
  destruct (open_rb env file_path) as [file|e]; [|discriminate]. cbn [rbind].
  destruct (PdfReader env file) as [pdf_reader|e]; [|discriminate]. cbn [rbind].
  destruct (reader_num_pages pdf_reader) as [page_count|e]; [|discriminate].
  cbn [rbind].
  destruct (reader_metadata pdf_reader) as [metadata|e]; [|discriminate].
  cbn [rbind].
  destruct (getsize env file_path) as [file_size|e]; [|discriminate].
  cbn [rbind]. intros [= <-].
  destruct (metadata_truthy metadata); [destruct metadata|]; reflexivity.
Qed.

Lemma get_pdf_info_body_envelope (env : Env) (file_path : string)
    (d : gmap string value) :
  get_pdf_info_body env file_path = Ok d -> envelope_ok d.
Proof.
  unfold get_pdf_info_body.
  destruct (isabs env file_path); cbn [negb];
    [|intros [= <-]; apply envelope_ok_failure].
  destruct (path_exists env file_path); cbn [negb];
    [|intros [= <-]; apply envelope_ok_failure].
  apply get_pdf_info_read_envelope.
Qed.

Lemma list_pdfs_in_directory_body_envelope (env : Env) (directory_path : string)
    (d : gmap string value) :
  list_pdfs_in_directory_body env directory_path = Ok d -> envelope_ok d.
Proof.
  unfold list_pdfs_in_directory_body.
  destruct (isabs env directory_path); cbn [negb];
    [|intros [= <-]; apply envelope_ok_failure].
  destruct (path_exists env directory_path); cbn [negb];
    [|intros [= <-]; apply envelope_ok_failure].
  destruct (isdir env directory_path); cbn [negb];
    [|intros [= <-]; apply envelope_ok_failure].
  intros [= <-]. reflexivity.
Qed.

(** C8. Every dictionary returned by one of the three tools has a boolean
    [success]; when it is false the keys are exactly [success] and [error]
    (no payload field), when it is true there is no [error] key. *)
Theorem envelope_invariant (env : Env) :
  (forall file_path page_numbers with_tables,
     envelope_ok (read_pdf_text env file_path page_numbers with_tables)) /\
  (forall file_path, envelope_ok (get_pdf_info env file_path)) /\
  (forall directory_path,
     envelope_ok (list_pdfs_in_directory env directory_path)).
Proof.
  split; [|split]; intros.
  - apply try_except_envelope, read_pdf_text_body_envelope.
  - apply try_except_envelope, get_pdf_info_body_envelope.
  - apply try_except_envelope, list_pdfs_in_directory_body_envelope.
Qed.

(** C4. No exception leaves a tool: each tool is its exception handler
    applied to its [try] block, and whatever the block did, the handler
    returns a dictionary: the block's own result when it returned, and the
    error form when it raised; for a [PermissionError] the error message
    holds the input path and the system message [str(e)]. *)
Theorem exceptions_converted (path : string) (body : result (gmap string value)) :
  converted path body (read_pdf_text_except path body) /\
  converted path body (get_pdf_info_except path body) /\
  converted path body (list_pdfs_in_directory_except path body) /\
  (forall env page_numbers with_tables,
     converted path (read_pdf_text_body env path page_numbers with_tables)
       (read_pdf_text env path page_numbers with_tables)) /\
  (forall env, converted path (get_pdf_info_body env path) (get_pdf_info env path)) /\
  (forall env,
     converted path (list_pdfs_in_directory_body env path)
       (list_pdfs_in_directory env path)).
Proof.
  repeat split; intros; apply try_except_converted.
Qed.

(** ** get_pdf_info *)

Lemma get_pdf_info_read_ok (env : Env) (file_path : string) (d : gmap string value) :
  get_pdf_info_read env file_path = Ok d ->
  exists file pdf_reader page_count metadata file_size,
    open_rb env file_path = Ok file /\
    PdfReader env file = Ok pdf_reader /\
    reader_num_pages pdf_reader = Ok page_count /\
    reader_metadata pdf_reader = Ok metadata /\
    getsize env file_path = Ok file_size /\
    d = dict [("success", VBool true); ("file_path", VStr file_path);
              ("page_count", VInt (Z.of_nat page_count));
              ("metadata", VDict (returned_metadata metadata));
              ("file_size", VInt file_size)].
Proof.
  unfold get_pdf_info_read.
  destruct (open_rb env file_path) as [file|e]; [|discriminate]. cbn [rbind].
  destruct (PdfReader env file) as [pdf_reader|e] eqn:Hreader; [|discriminate].
  cbn [rbind].
  destruct (reader_num_pages pdf_reader) as [page_count|e] eqn:Hcount;
    [|discriminate].
  cbn [rbind].
  destruct (reader_metadata pdf_reader) as [metadata|e] eqn:Hmeta; [|discriminate].
  cbn [rbind].
  destruct (getsize env file_path) as [file_size|e]; [|discriminate].
  cbn [rbind]. intros [= <-].
  exists file, pdf_reader, page_count, metadata, file_size.
  repeat (split; [first [reflexivity | eassumption]|]).
  unfold returned_metadata.
  destruct (metadata_truthy metadata); [destruct metadata|]; reflexivity.
Qed.

Lemma get_pdf_info_success (env : Env) (file_path : string) :
  get_pdf_info env file_path !! "success" = Some (VBool true) ->
  isabs env file_path = true /\
  path_exists env file_path = true /\
  get_pdf_info_read env file_path = Ok (get_pdf_info env file_path).
Proof.
  unfold get_pdf_info, get_pdf_info_body, get_pdf_info_except.
  destruct (isabs env file_path); [|discriminate].
  destruct (path_exists env file_path); [|discriminate].
  cbn [negb].
  destruct (get_pdf_info_read env file_path) as [d|[m|m]]; [|discriminate..].
  intros _. repeat split.
Qed.

Lemma metadata_truthy_nonempty (info_dict : gmap string PyObject) :
  info_dict <> ∅ -> metadata_truthy (Some info_dict) = true.
Proof.
  intros Hne. unfold metadata_truthy.
  destruct (size info_dict) as [|n] eqn:Hsize; [|reflexivity].
  now apply map_size_empty_iff in Hsize.
Qed.

Lemma metadata_get_value (info_dict : gmap string PyObject) (pdf_key : string) :
  py_value (metadata_get info_dict pdf_key)
  = expected_field info_dict pdf_key false.
Proof.
  unfold metadata_get, expected_field. now destruct (info_dict !! pdf_key).
Qed.

Lemma metadata_get_str (info_dict : gmap string PyObject) (pdf_key : string) :
  VStr (py_str (metadata_get info_dict pdf_key))
  = expected_field info_dict pdf_key true.
Proof.
  unfold metadata_get, expected_field. now destruct (info_dict !! pdf_key).
Qed.

Lemma returned_metadata_expected (metadata : option (gmap string PyObject)) :
  returned_metadata metadata = expected_metadata metadata.
Proof.
  destruct metadata as [info_dict|]; [|reflexivity].
  unfold returned_metadata, expected_metadata, metadata_truthy.
  rewrite <- length_map_to_list.
  destruct (map_to_list info_dict) as [|entry entries]; [reflexivity|].
  cbn [length Nat.eqb negb]. unfold metadata_fields.
  now rewrite !metadata_get_value, !metadata_get_str.
Qed.

Lemma metadata_fields_lookup (info_dict : gmap string PyObject) :
  Forall
    (fun '(key, pdf_key, through_str) =>
       metadata_fields info_dict !! key
       = Some (expected_field info_dict pdf_key through_str))
    recognized_keys.
Proof.
  unfold metadata_fields. rewrite !metadata_get_value, !metadata_get_str.
  repeat constructor.
Qed.

Lemma metadata_fields_dom (info_dict : gmap string PyObject) :
  dom (metadata_fields info_dict)
  = ({["title"; "author"; "subject"; "creator"; "producer"; "creation_date";
       "modification_date"]} : gset string).
Proof. reflexivity. Qed.

(** C1, as the code has it. When [get_pdf_info] succeeds on a document whose
    info dictionary is present and not empty, the [metadata] map has exactly
    the seven recognized keys; a key whose entry the info dictionary lacks
    holds the empty string, the others hold the entry (title, author,
    subject, creator and producer as it is, the two dates as [str] of it).
    When the document has no info dictionary, or an empty one, the
    [metadata] map is empty. *)
Theorem get_pdf_info_metadata (env : Env) (file_path : string) :
  get_pdf_info env file_path !! "success" = Some (VBool true) ->
  exists file pdf_reader metadata,
    open_rb env file_path = Ok file /\
    PdfReader env file = Ok pdf_reader /\
    reader_metadata pdf_reader = Ok metadata /\
    (forall info_dict, metadata = Some info_dict -> info_dict <> ∅ ->
       exists fields : gmap string value,
         get_pdf_info env file_path !! "metadata" = Some (VDict fields) /\
         dom fields
         = ({["title"; "author"; "subject"; "creator"; "producer";
              "creation_date"; "modification_date"]} : gset string) /\
         Forall
           (fun '(key, pdf_key, through_str) =>
              fields !! key
              = Some (expected_field info_dict pdf_key through_str))
           recognized_keys) /\
    (metadata = None \/ metadata = Some ∅ ->
       get_pdf_info env file_path !! "metadata" = Some (VDict ∅)).
Proof.
  intros Hs. destruct (get_pdf_info_success _ _ Hs) as (_ & _ & Hread).
  destruct (get_pdf_info_read_ok _ _ _ Hread)
    as (file & pdf_reader & page_count & metadata & file_size
        & Hopen & Hreader & _ & Hmeta & _ & ->).
  exists file, pdf_reader, metadata.
  split; [exact Hopen|]. split; [exact Hreader|]. split; [exact Hmeta|].
  split.
  - intros info_dict -> Hne.
    exists (metadata_fields info_dict).
    split; [|split; [apply metadata_fields_dom | apply metadata_fields_lookup]].
    unfold returned_metadata. now rewrite (metadata_truthy_nonempty _ Hne).
  - intros [-> | ->]; reflexivity.
Qed.

Lemma get_pdf_info_metadata_witness :
  exists fields,
    get_pdf_info Sample.env "/docs/titled.pdf" !! "metadata" = Some (VDict fields) /\
    fields !! "title" = Some (VStr "Report") /\
    fields !! "author" = Some (VStr "") /\
    fields !! "subject" = Some (VInt 42) /\
    fields !! "creation_date" = Some (VStr "IndirectObject(7, 0)") /\
    fields !! "modification_date" = Some (VStr "").
Proof.
  destruct (get_pdf_info_metadata Sample.env "/docs/titled.pdf" eq_refl)
    as (file & pdf_reader & metadata & Hopen & Hreader & Hmeta & Hfull & _).
  injection Hopen as <-. injection Hreader as <-. injection Hmeta as <-.
  destruct (Hfull Sample.titled eq_refl) as (fields & Hf & _ & Hkeys).
  { intros E. apply (f_equal (fun m : gmap string PyObject => m !! "/Title")) in E.
    discriminate E. }
  exists fields. split; [exact Hf|].
  apply Forall_cons in Hkeys as [Htitle Hkeys].
  apply Forall_cons in Hkeys as [Hauthor Hkeys].
  apply Forall_cons in Hkeys as [Hsubject Hkeys].
  apply Forall_cons in Hkeys as [_ Hkeys].
  apply Forall_cons in Hkeys as [_ Hkeys].
  apply Forall_cons in Hkeys as [Hcreated Hkeys].
  apply Forall_cons in Hkeys as [Hmodified _].
  split; [exact Htitle|]. split; [exact Hauthor|]. split; [exact Hsubject|].
  split; [exact Hcreated | exact Hmodified].
Defined.

(** C1 as stated fails: [report.pdf] has no info dictionary, the call
    succeeds, and the returned [metadata] map is empty, so it has no
    [title] key. *)
Lemma no_info_dictionary_counterexample :
  isabs Sample.env "/docs/report.pdf" = true /\
  path_exists Sample.env "/docs/report.pdf" = true /\
  get_pdf_info Sample.env "/docs/report.pdf" !! "success" = Some (VBool true) /\
  exists fields,
    get_pdf_info Sample.env "/docs/report.pdf" !! "metadata" = Some (VDict fields) /\
    fields !! "title" = None /\
    fields !! "title" <> Some (VStr "").
Proof.
  repeat (split; [reflexivity|]).
  exists ∅. split; [reflexivity|]. split; [reflexivity | discriminate].
Qed.

Lemma get_pdf_info_read_success (env : Env) (file_path : string)
    (d : gmap string value) :
  get_pdf_info_read env file_path = Ok d -> d !! "success" = Some (VBool true).
Proof.
  intros Hread.
  destruct (get_pdf_info_read_ok _ _ _ Hread)
    as (file & pdf_reader & page_count & metadata & file_size & _ & _ & _ & _ & _ & ->).
  reflexivity.
Qed.

(** C7. [get_pdf_info] has no suffix check: for an absolute, existing path,
    whatever its name, the result is that of opening and parsing the file
    under the handlers; it is never the "File must be a PDF" validation
    error, and when the parsing library rejects the file the result is the
    generic error form with the library's message. *)
Theorem get_pdf_info_no_suffix_check (env : Env) (file_path : string) :
  isabs env file_path = true ->
  path_exists env file_path = true ->
  get_pdf_info env file_path
    = get_pdf_info_except file_path (get_pdf_info_read env file_path) /\
  get_pdf_info env file_path <> failure "File must be a PDF" /\
  (forall file msg,
     open_rb env file_path = Ok file ->
     PdfReader env file = Raise (OtherException msg) ->
     get_pdf_info env file_path = failure ("Error getting PDF info: " ++ msg)).
Proof.
  intros Habs Hex.
  assert (Hrun : get_pdf_info env file_path
                 = get_pdf_info_except file_path (get_pdf_info_read env file_path)).
  { unfold get_pdf_info, get_pdf_info_body. now rewrite Habs, Hex. }
  split; [exact Hrun|]. rewrite Hrun. split.
  - unfold get_pdf_info_except.
    destruct (get_pdf_info_read env file_path) as [d|[msg|msg]] eqn:Hread;
      cbn [try_except]; intros E.
    + apply get_pdf_info_read_success in Hread.
      rewrite E, failure_success in Hread. discriminate Hread.
    + apply failure_inj in E. discriminate E.
    + apply failure_inj in E. discriminate E.
  - intros file msg Hopen Hreader.
    unfold get_pdf_info_read. rewrite Hopen. cbn [rbind]. rewrite Hreader.
    reflexivity.
Qed.

Lemma get_pdf_info_no_suffix_check_witness :
  endswith (lower "/docs/notes.txt") ".pdf" = false /\
  get_pdf_info Sample.env "/docs/notes.txt"
  = failure "Error getting PDF info: Cannot read an empty file" /\
  get_pdf_info Sample.env "/docs/notes.txt" <> failure "File must be a PDF".
Proof.
  destruct (get_pdf_info_no_suffix_check Sample.env "/docs/notes.txt"
              eq_refl eq_refl) as (_ & Hne & Hparse).
  split; [reflexivity|]. split; [|exact Hne].
  exact (Hparse [] "Cannot read an empty file" eq_refl eq_refl).
Defined.

(** ** File names *)

Lemma string_length_app (a b : string) :
  String.length (a ++ b) = String.length a + String.length b.
Proof.
  induction a as [|x a IH]; [reflexivity|].
  rewrite string_app_cons. cbn [String.length]. now rewrite IH.
Qed.

Lemma substring_all (s : string) : substring 0 (String.length s) s = s.
Proof. induction s as [|x s IH]; [reflexivity|]. cbn. now rewrite IH. Qed.

Lemma substring_app_r (pre suf : string) :
  substring (String.length pre) (String.length suf) (pre ++ suf) = suf.
Proof.
  induction pre as [|x pre IH]; [apply substring_all|].
  rewrite string_app_cons. exact IH.
Qed.

Lemma substring_split (s : string) (a b : nat) :
  a + b = String.length s -> s = substring 0 a s ++ substring a b s.
Proof.
  revert a. induction s as [|x s IH]; intros a Hlen.
  - cbn in Hlen. assert (a = 0) as -> by lia. assert (b = 0) as -> by lia.
    reflexivity.
  - destruct a as [|a].
    + cbn in Hlen. subst b. cbn [substring]. rewrite substring_all.
      reflexivity.
    + cbn [substring]. rewrite string_app_cons. f_equal. apply IH.
      cbn in Hlen. lia.
Qed.

Lemma endswith_iff (s suffix : string) :
  endswith s suffix = true <-> exists pre, s = pre ++ suffix.
Proof.
  unfold endswith. split.
  - intros H. apply andb_true_iff in H as [Hle Heq].
    apply Nat.leb_le in Hle. apply String.eqb_eq in Heq.
    exists (substring 0 (String.length s - String.length suffix) s).
    rewrite (substring_split s (String.length s - String.length suffix)
               (String.length suffix)) at 1 by lia.
    now rewrite Heq.
  - intros [pre ->]. rewrite string_length_app. apply andb_true_iff. split.
    + apply Nat.leb_le. lia.
    + replace (String.length pre + String.length suffix - String.length suffix)
        with (String.length pre) by lia.
      rewrite substring_app_r. apply String.eqb_refl.
Qed.

Lemma lower_app (a b : string) : lower (a ++ b) = lower a ++ lower b.
Proof.
  induction a as [|x a IH]; [reflexivity|].
  rewrite string_app_cons. cbn [lower]. now rewrite IH, string_app_cons.
Qed.

Lemma lower_app_inv (s a b : string) :
  lower s = a ++ b -> exists s1 s2, s = s1 ++ s2 /\ lower s1 = a /\ lower s2 = b.
Proof.
  revert s. induction a as [|x a IH]; intros s E.
  - exists "", s. repeat split. exact E.
  - destruct s as [|y s]; [discriminate E|].
    rewrite string_app_cons in E. cbn [lower] in E. injection E as Hx E.
    destruct (IH s E) as (s1 & s2 & -> & H1 & H2).
    exists (String y s1), s2. rewrite string_app_cons. cbn [lower].
    now rewrite Hx, H1, H2.
Qed.

(** Case analysis on the 256 characters. *)
Ltac by_characters c :=
  destruct c as [[] [] [] [] [] [] [] []]; vm_compute;
  (split;
   [ intros H; first [discriminate H | reflexivity | left; reflexivity | right; reflexivity]
   | first [ intros [H|H]; first [reflexivity | discriminate H]
           | intros H; first [reflexivity | discriminate H] ] ]).

Lemma lower_ascii_dot (c : ascii) : lower_ascii c = "."%char <-> c = "."%char.
Proof. by_characters c. Qed.

Lemma lower_ascii_p (c : ascii) :
  lower_ascii c = "p"%char <-> (c = "p" \/ c = "P")%char.
Proof. by_characters c. Qed.

Lemma lower_ascii_d (c : ascii) :
  lower_ascii c = "d"%char <-> (c = "d" \/ c = "D")%char.
Proof. by_characters c. Qed.

Lemma lower_ascii_f (c : ascii) :
  lower_ascii c = "f"%char <-> (c = "f" \/ c = "F")%char.
Proof. by_characters c. Qed.

(** The suffix test of the source accepts exactly the names that end in
    [.pdf] in any mix of cases. *)
Lemma endswith_lower_pdf (file : string) :
  endswith (lower file) ".pdf" = true <-> pdf_name file.
Proof.
  rewrite endswith_iff. unfold pdf_name. split.
  - intros [pre E]. apply lower_app_inv in E as (stem & ext & -> & _ & Hext).
    destruct ext as [|c0 [|c1 [|c2 [|c3 [|c4 ext]]]]]; try discriminate Hext.
    cbn [lower] in Hext. injection Hext as H0 H1 H2 H3.
    apply lower_ascii_dot in H0 as ->.
    exists stem, c1, c2, c3. split; [reflexivity|].
    split; [now apply lower_ascii_p|].
    split; [now apply lower_ascii_d | now apply lower_ascii_f].
  - intros (stem & c1 & c2 & c3 & -> & H1 & H2 & H3).
    exists (lower stem). rewrite lower_app. cbn [lower]. f_equal.
    apply lower_ascii_p in H1. apply lower_ascii_d in H2.
    apply lower_ascii_f in H3. now rewrite H1, H2, H3.
Qed.

Lemma discovered_iff (env : Env) (directory_path root file : string) :
  In (root, file) (discovered env directory_path) <->
  pdf_name file /\
  exists dirs files,
    In (root, dirs, files) (walk env directory_path) /\ In file files.
Proof.
  unfold discovered. rewrite in_flat_map. split.
  - intros ([[root' dirs] files] & Hwalk & Hin).
    apply in_map_iff in Hin as (file' & [= -> ->] & Hfile).
    apply filter_In in Hfile as [Hfile Hpdf].
    split; [now apply endswith_lower_pdf | eauto].
  - intros (Hpdf & dirs & files & Hwalk & Hfile).
    exists (root, dirs, files). split; [exact Hwalk|].
    apply in_map, filter_In. split; [exact Hfile | now apply endswith_lower_pdf].
Qed.

(** ** list_pdfs_in_directory *)

Section ListPdfs.

Variable env : Env.
Variable directory_path : string.






End ListPdfs.



(** * Further properties *)

(** ** The page loop, page by page *)

Lemma tables_or_empty_id (tables : list table) : tables_or_empty tables = tables.
Proof. now destruct tables. Qed.

Lemma py_index_lookup {A : Type} (l : list A) (i : Z) (x : A) :
  (0 <= i)%Z -> l !! Z.to_nat i = Some x -> py_index l i = Ok x.
Proof.
  intros Hi Hx. unfold py_index.
  destruct (i <? 0)%Z eqn:Hneg; [lia|].
  apply lookup_lt_Some in Hx as Hlt.
  replace ((0 <=? i)%Z && (i <? Z.of_nat (length l))%Z) with true
    by (symmetry; apply andb_true_iff; split; lia).
  now rewrite Hx.
Qed.

Lemma process_page_inv (pages : list Page) (with_tables : bool) (idx : Z)
    (info : gmap string value) (text : string) :
  (0 <= idx)%Z ->
  process_page pages with_tables idx = Ok (info, text) ->
  exists page tx,
    pages !! Z.to_nat idx = Some page /\
    extract_text page = Ok tx /\
    text = or_empty tx /\
    tables_recorded with_tables page info.
Proof.
  intros Hidx. unfold process_page.
  destruct (py_index pages idx) as [page|e] eqn:Ei; cbn [rbind]; [|discriminate].
  destruct (extract_text page) as [tx|e] eqn:Et; cbn [rbind]; [|discriminate].
  intros E. exists page, tx.
  split; [exact (py_index_in_range _ _ _ Hidx Ei)|]. split; [exact Et|].
  unfold tables_recorded.
  destruct with_tables; [destruct (extract_tables page) as [tables|e]|];
    injection E as <- <-; (split; [reflexivity|]).
  - rewrite tables_or_empty_id. split; reflexivity.
  - split; reflexivity.
  - split; reflexivity.
Qed.

Lemma process_page_returns (pages : list Page) (with_tables : bool) (idx : Z)
    (page : Page) (tx : option string) :
  (0 <= idx)%Z ->
  pages !! Z.to_nat idx = Some page ->
  extract_text page = Ok tx ->
  exists info, process_page pages with_tables idx = Ok (info, or_empty tx).
Proof.
  intros Hidx Hpage Htext. unfold process_page.
  rewrite (py_index_lookup _ _ _ Hidx Hpage). cbn [rbind]. rewrite Htext.
  cbn [rbind]. eauto.
Qed.

Lemma process_page_raises (pages : list Page) (with_tables : bool) (idx : Z)
    (page : Page) (e : exn) :
  (0 <= idx)%Z ->
  pages !! Z.to_nat idx = Some page ->
  extract_text page = Raise e ->
  process_page pages with_tables idx = Raise e.
Proof.
  intros Hidx Hpage Htext. unfold process_page.
  rewrite (py_index_lookup _ _ _ Hidx Hpage). cbn [rbind]. now rewrite Htext.
Qed.

Lemma collect_returns {A B : Type} (f : A -> result B) (l : list A) :
  Forall (fun x => exists y, f x = Ok y) l -> exists ys, collect f l = Ok ys.
Proof.
  induction 1 as [|x l [y Hy] _ [ys Hys]]; cbn [collect].
  - eauto.
  - rewrite Hy. cbn [rbind]. rewrite Hys. cbn [rbind]. eauto.
Qed.

Lemma collect_first_raise {A B : Type} (f : A -> result B)
    (before : list A) (x : A) (after : list A) (e : exn) :
  Forall (fun a => exists y, f a = Ok y) before ->
  f x = Raise e ->
  collect f (before ++ x :: after)%list = Raise e.
Proof.
  intros Hbefore Hx. induction Hbefore as [|a before [y Hy] _ IH].
  - cbn [app collect]. now rewrite Hx.
  - cbn [app collect]. rewrite Hy. cbn [rbind]. now rewrite IH.
Qed.

(** The indices of the loop are the kept numbers less one. *)
Lemma pages_to_process_kept (page_numbers : option (list Z)) (n : nat) :
  pages_to_process page_numbers n
  = map (fun p => (p - 1)%Z) (kept_numbers page_numbers n).
Proof.
  rewrite <- pages_to_process_numbers, map_map.
  rewrite <- (map_id (pages_to_process page_numbers n)) at 1.
  apply map_ext. intros idx. lia.
Qed.

Lemma kept_numbers_positive (page_numbers : option (list Z)) (n : nat) :
  Forall (fun p => (1 <= p <= Z.of_nat n)%Z) (kept_numbers page_numbers n).
Proof.
  rewrite <- pages_to_process_numbers. apply Forall_map.
  eapply Forall_impl; [apply pages_to_process_in_range|].
  intros idx Hidx. cbv beta in Hidx |- *. lia.
Qed.

(** The loop returns exactly when the text of every selected page can be
    extracted. *)
Lemma loop_returns_iff (pages : list Page) (with_tables : bool)
    (page_numbers : option (list Z)) :
  (exists items,
     collect (process_page pages with_tables)
       (pages_to_process page_numbers (length pages)) = Ok items) <->
  Forall (text_extracts pages) (kept_numbers page_numbers (length pages)).
Proof.
  rewrite pages_to_process_kept.
  pose proof (kept_numbers_positive page_numbers (length pages)) as Hpos.
  induction Hpos as [|p kept Hp _ IH]; cbn [map collect].
  - split; [constructor | eauto].
  - split.
    + intros [items E].
      destruct (process_page pages with_tables (p - 1)) as [[info text]|e] eqn:Ep;
        cbn [rbind] in E; [|discriminate].
      destruct (collect _ (map _ kept)) as [rest|e] eqn:Er;
        cbn [rbind] in E; [|discriminate].
      constructor; [|apply IH; eauto].
      apply process_page_inv in Ep as (page & tx & Hpage & Htx & _); [|lia].
      exists page, tx. split; assumption.
    + intros H. apply Forall_cons in H as [(page & tx & Hpage & Htx) Hkept].
      destruct (process_page_returns pages with_tables (p - 1) page tx)
        as [info Hinfo]; [lia | exact Hpage | exact Htx |].
      rewrite Hinfo. cbn [rbind].
      apply IH in Hkept as [rest ->]. cbn [rbind]. eauto.
Qed.

(** ** read_pdf_text: success and failure *)

(** Once the document is open the result is decided by the loop alone. *)
Lemma read_pdf_text_opened (env : Env) (file_path : string)
    (page_numbers : option (list Z)) (with_tables : bool)
    (pdf : PDF) (pages : list Page) :
  isabs env file_path = true ->
  path_exists env file_path = true ->
  endswith (lower file_path) ".pdf" = true ->
  pdfplumber_open env file_path = Ok pdf ->
  pdf_pages pdf = Ok pages ->
  read_pdf_text env file_path page_numbers with_tables
  = match collect (process_page pages with_tables)
            (pages_to_process page_numbers (length pages)) with
    | Ok items =>
        read_result file_path (length pages)
          (map (fun item => VDict (fst item)) items)
          (str_join blank_line (map snd items))
    | Raise e => read_pdf_text_error file_path e
    end.
Proof.
  intros Habs Hex Hpdf Hopen Hpages.
  unfold read_pdf_text, read_pdf_text_body, read_pdf_text_except.
  rewrite Habs, Hex, Hpdf. cbn [negb]. rewrite Hopen. cbn [rbind].
  rewrite Hpages. cbn [rbind]. rewrite process_pages_collect.
  destruct (collect _ _) as [items|[msg|msg]]; reflexivity.
Qed.

Lemma read_pdf_text_error_not_success (file_path : string) (e : exn) :
  read_pdf_text_error file_path e !! "success" = Some (VBool false).
Proof. destruct e; reflexivity. Qed.

Lemma read_pdf_text_suffix_accepted (env : Env) (file_path : string)
    (page_numbers : option (list Z)) (with_tables : bool) :
  isabs env file_path = true ->
  path_exists env file_path = true ->
  endswith (lower file_path) ".pdf" = true ->
  read_pdf_text env file_path page_numbers with_tables
  <> failure "File must be a PDF".
Proof.
  intros Habs Hex Hpdf.
  unfold read_pdf_text, read_pdf_text_body, read_pdf_text_except.
  rewrite Habs, Hex, Hpdf. cbn [negb].
  destruct (pdfplumber_open env file_path) as [pdf|[msg|msg]]; cbn [rbind try_except];
    [|intros E; apply failure_inj in E; discriminate E..].
  destruct (pdf_pages pdf) as [pages|[msg|msg]]; cbn [rbind try_except];
    [|intros E; apply failure_inj in E; discriminate E..].
  rewrite process_pages_collect.
  destruct (collect _ _) as [items|[msg|msg]]; cbn [rbind try_except];
    [|intros E; apply failure_inj in E; discriminate E..].
  intros E.
  apply (f_equal (fun d : gmap string value => d !! "success")) in E.
  discriminate E.
Qed.

(** X1. [read_pdf_text] succeeds exactly when the path is absolute, exists
    and has a [.pdf] name, the document opens and its page list loads, and
    the text of every kept page number can be extracted; the page numbers
    themselves, whatever integers they are, never make the call fail. *)
Theorem read_pdf_text_success_iff (env : Env) (file_path : string)
    (page_numbers : option (list Z)) (with_tables : bool) :
  read_pdf_text env file_path page_numbers with_tables !! "success"
    = Some (VBool true) <->
  isabs env file_path = true /\
  path_exists env file_path = true /\
  endswith (lower file_path) ".pdf" = true /\
  exists pdf pages,
    pdfplumber_open env file_path = Ok pdf /\
    pdf_pages pdf = Ok pages /\
    Forall (text_extracts pages) (kept_numbers page_numbers (length pages)).
Proof.
  split.
  - intros Hs.
    destruct (read_pdf_text_success _ _ _ _ Hs)
      as (pdf & pages & items & Habs & Hex & Hpdf & Hopen & Hpages & Hloop & _).
    repeat (split; [assumption|]).
    exists pdf, pages. split; [exact Hopen|]. split; [exact Hpages|].
    apply (loop_returns_iff pages with_tables). eauto.
  - intros (Habs & Hex & Hpdf & pdf & pages & Hopen & Hpages & Hall).
    apply (loop_returns_iff pages with_tables) in Hall as [items Hloop].
    rewrite (read_pdf_text_run env file_path page_numbers with_tables
               pdf pages items Habs Hex Hpdf Hopen Hpages Hloop).
    reflexivity.
Qed.

Lemma read_pdf_text_success_iff_witness :
  read_pdf_text Scanned.env "/docs/scan.pdf" (Some [3; -1; 1; 8]%Z) true
    !! "success" = Some (VBool true) /\
  ~ Forall (text_extracts Scanned.pages) (kept_numbers None 3).
Proof.
  split.
  - apply (proj2 (read_pdf_text_success_iff Scanned.env "/docs/scan.pdf"
                    (Some [3; -1; 1; 8]%Z) true)).
    split; [reflexivity|]. split; [reflexivity|]. split; [reflexivity|].
    exists {| pdf_pages := Ok Scanned.pages |}, Scanned.pages.
    split; [reflexivity|]. split; [reflexivity|].
    repeat constructor; eexists _, _; split; reflexivity.
  - intros Hall.
    assert (Hs : read_pdf_text Scanned.env "/docs/scan.pdf" None true
                   !! "success" = Some (VBool true)).
    { apply (proj2 (read_pdf_text_success_iff Scanned.env "/docs/scan.pdf"
                      None true)).
      split; [reflexivity|]. split; [reflexivity|]. split; [reflexivity|].
      exists {| pdf_pages := Ok Scanned.pages |}, Scanned.pages.
      split; [reflexivity|]. split; [reflexivity | exact Hall]. }
    discriminate Hs.
Defined.

(** X2. When the document is open, the first kept page number whose text
    extraction raises decides the result: the call returns the error form
    for that exception, whatever the pages after it would have given. *)
Theorem read_pdf_text_first_failure (env : Env) (file_path : string)
    (page_numbers : option (list Z)) (with_tables : bool)
    (pdf : PDF) (pages : list Page)
    (before : list Z) (p : Z) (after : list Z) (page : Page) (e : exn) :
  isabs env file_path = true ->
  path_exists env file_path = true ->
  endswith (lower file_path) ".pdf" = true ->
  pdfplumber_open env file_path = Ok pdf ->
  pdf_pages pdf = Ok pages ->
  kept_numbers page_numbers (length pages) = (before ++ p :: after)%list ->
  Forall (text_extracts pages) before ->
  pages !! Z.to_nat (p - 1) = Some page ->
  extract_text page = Raise e ->
  read_pdf_text env file_path page_numbers with_tables
  = read_pdf_text_error file_path e.
Proof.
  intros Habs Hex Hpdf Hopen Hpages Hkept Hbefore Hpage He.
  rewrite (read_pdf_text_opened env file_path page_numbers with_tables
             pdf pages Habs Hex Hpdf Hopen Hpages).
  pose proof (kept_numbers_positive page_numbers (length pages)) as Hpos.
  rewrite Hkept in Hpos. apply Forall_app in Hpos as [Hposb Hposp].
  apply Forall_cons in Hposp as [Hp _].
  rewrite pages_to_process_kept, Hkept, map_app. cbn [map].
  rewrite (collect_first_raise _ _ _ _ e); [reflexivity| |].
  - apply Forall_map, Forall_forall. intros q Hin.
    rewrite Forall_forall in Hbefore, Hposb.
    destruct (Hbefore q Hin) as (pg & tx & Hpg & Htx).
    pose proof (Hposb q Hin) as Hq. cbv beta.
    destruct (process_page_returns pages with_tables (q - 1) pg tx)
      as [info Hinfo]; [lia | exact Hpg | exact Htx | eauto].
  - apply (process_page_raises pages with_tables (p - 1) page e);
      [lia | exact Hpage | exact He].
Qed.

Lemma read_pdf_text_first_failure_witness :
  read_pdf_text Scanned.env "/docs/scan.pdf" (Some [1; 2; 3]%Z) false
  = failure "Error reading PDF: unsupported font".
Proof.
  refine (read_pdf_text_first_failure Scanned.env "/docs/scan.pdf"
            (Some [1; 2; 3]%Z) false {| pdf_pages := Ok Scanned.pages |}
            Scanned.pages [1%Z] 2%Z [3%Z] _ (OtherException "unsupported font")
            eq_refl eq_refl eq_refl eq_refl eq_refl eq_refl _ eq_refl eq_refl).
  repeat constructor. eexists _, _. split; reflexivity.
Defined.

(** X3. A document that passes validation but cannot be opened, or whose
    page list cannot be loaded (for instance because the file went away
    after the existence check), gives the error form for the exception of
    the library. *)
Theorem read_pdf_text_open_failure (env : Env) (file_path : string)
    (page_numbers : option (list Z)) (with_tables : bool) (e : exn) :
  isabs env file_path = true ->
  path_exists env file_path = true ->
  endswith (lower file_path) ".pdf" = true ->
  pdfplumber_open env file_path = Raise e \/
  (exists pdf, pdfplumber_open env file_path = Ok pdf /\ pdf_pages pdf = Raise e) ->
  read_pdf_text env file_path page_numbers with_tables
  = read_pdf_text_error file_path e.
Proof.
  intros Habs Hex Hpdf Hfail.
  unfold read_pdf_text, read_pdf_text_body, read_pdf_text_except.
  rewrite Habs, Hex, Hpdf. cbn [negb].
  destruct Hfail as [-> | (pdf & -> & Hpages)]; cbn [rbind].
  - now destruct e.
  - rewrite Hpages. now destruct e.
Qed.

Lemma read_pdf_text_open_failure_witness :
  path_exists Scanned.env "/docs/a.pdf" = true /\
  read_pdf_text Scanned.env "/docs/a.pdf" None false
  = failure "Error reading PDF: [Errno 2] No such file or directory" /\
  read_pdf_text Sample.env "/docs/locked.pdf" None false
  = failure ("Permission denied accessing file: /docs/locked.pdf. "
             ++ "Error: [Errno 13] Permission denied").
Proof.
  split; [reflexivity|]. split.
  - exact (read_pdf_text_open_failure Scanned.env "/docs/a.pdf" None false
             (OtherException "[Errno 2] No such file or directory")
             eq_refl eq_refl eq_refl (or_introl eq_refl)).
  - exact (read_pdf_text_open_failure Sample.env "/docs/locked.pdf" None false
             Sample.denied eq_refl eq_refl eq_refl (or_introl eq_refl)).
Defined.

(** X4. For an absolute, existing path [read_pdf_text] answers
    "File must be a PDF" exactly when the name does not end in [.pdf] in
    some mix of cases; no later failure is reported with that message. *)
Theorem read_pdf_text_not_a_pdf_iff (env : Env) (file_path : string)
    (page_numbers : option (list Z)) (with_tables : bool) :
  isabs env file_path = true ->
  path_exists env file_path = true ->
  (read_pdf_text env file_path page_numbers with_tables
   = failure "File must be a PDF"
   <-> ~ pdf_name file_path).
Proof.
  intros Habs Hex. rewrite <- endswith_lower_pdf.
  destruct (endswith (lower file_path) ".pdf") eqn:Hpdf.
  - split; [|intros H; now exfalso].
    intros E. exfalso.
    now apply (read_pdf_text_suffix_accepted env file_path page_numbers
                 with_tables Habs Hex Hpdf).
  - split; [intros _; discriminate|]. intros _.
    unfold read_pdf_text, read_pdf_text_body. now rewrite Habs, Hex, Hpdf.
Qed.

Lemma read_pdf_text_not_a_pdf_iff_witness :
  ~ pdf_name "/docs/notes.txt" /\
  (read_pdf_text Scanned.env "/docs/b.PDF" None false
   = failure "File must be a PDF" -> False).
Proof.
  split.
  - apply (proj1 (read_pdf_text_not_a_pdf_iff Sample.env "/docs/notes.txt"
                    None false eq_refl eq_refl)).
    reflexivity.
  - intros E.
    apply (proj1 (read_pdf_text_not_a_pdf_iff Scanned.env "/docs/b.PDF"
                    None false eq_refl eq_refl) E).
    exists "/docs/b", "P"%char, "D"%char, "F"%char.
    split; [reflexivity|]. repeat split; now right.
Defined.

(** ** read_pdf_text: the pages of a successful result *)

Lemma map_Some_Forall {A B : Type} (f : A -> option B) (P : B -> Prop)
    (l : list A) (k : list B) :
  map f l = map Some k -> Forall P k ->
  Forall (fun a => exists b, f a = Some b /\ P b) l.
Proof.
  revert k. induction l as [|a l IH]; intros [|b k] E Hk;
    try discriminate E; [constructor|].
  injection E as Ha E. apply Forall_cons in Hk as [Hb Hk].
  constructor; [eauto | now apply (IH k)].
Qed.

(** X5. In a successful result every [page_number] lies between 1 and
    [total_pages]; without [page_numbers] there are [total_pages] page
    dictionaries, with [page_numbers] at most as many as numbers were
    requested. *)
Theorem read_pdf_text_page_bounds (env : Env) (file_path : string)
    (page_numbers : option (list Z)) (with_tables : bool) :
  read_pdf_text env file_path page_numbers with_tables !! "success"
    = Some (VBool true) ->
  exists (n : nat) (result_pages : list value),
    read_pdf_text env file_path page_numbers with_tables !! "total_pages"
      = Some (VInt (Z.of_nat n)) /\
    read_pdf_text env file_path page_numbers with_tables !! "pages"
      = Some (VList result_pages) /\
    Forall (fun v => exists p,
              page_number_of v = Some p /\ (1 <= p <= Z.of_nat n)%Z)
      result_pages /\
    (page_numbers = None -> length result_pages = n) /\
    (forall requested, page_numbers = Some requested ->
       length result_pages <= length requested).
Proof.
  intros Hs.
  destruct (read_pdf_text_success _ _ _ _ Hs)
    as (pdf & pages & items & _ & _ & _ & _ & _ & Hloop & ->).
  exists (length pages), (map (fun item => VDict (fst item)) items).
  split; [reflexivity|]. split; [reflexivity|].
  pose proof (items_page_numbers _ _ _ _ Hloop) as Hnum.
  rewrite pages_to_process_numbers in Hnum.
  assert (Hlen : length (map (fun item : gmap string value * string =>
                                VDict (fst item)) items)
                 = length (kept_numbers page_numbers (length pages))).
  { apply (f_equal (@length (option Z))) in Hnum.
    rewrite !length_map in Hnum. now rewrite length_map. }
  split; [|split].
  - exact (map_Some_Forall _ _ _ _ Hnum (kept_numbers_positive _ _)).
  - intros ->. rewrite Hlen. cbn [kept_numbers].
    now rewrite length_map, length_seq.
  - intros requested ->. rewrite Hlen. cbn [kept_numbers].
    apply length_filter.
Qed.

Lemma read_pdf_text_page_bounds_witness :
  exists result_pages,
    read_pdf_text Sample.env "/docs/report.pdf" None false !! "pages"
      = Some (VList result_pages) /\
    length result_pages = 5.
Proof.
  destruct (read_pdf_text_page_bounds Sample.env "/docs/report.pdf" None false
              eq_refl) as (n & result_pages & Hn & Hres & _ & Hall & _).
  injection Hn as Hn. apply Nat2Z.inj in Hn. subst n.
  exists result_pages. split; [exact Hres | exact (Hall eq_refl)].
Defined.

Lemma contains_refl_app (s post : string) : contains (s ++ post) s.
Proof. exists "", post. reflexivity. Qed.

Lemma contains_app_r (pre s sub : string) :
  contains s sub -> contains (pre ++ s) sub.
Proof.
  intros (a & b & ->). exists (pre ++ a), b. now rewrite string_app_assoc.
Qed.

Lemma str_join_contains (sep : string) (parts : list string) (t : string) :
  In t parts -> contains (str_join sep parts) t.
Proof.
  induction parts as [|x [|y rest] IH]; intros Hin.
  - destruct Hin.
  - destruct Hin as [->|[]]. exists "", "". now rewrite string_app_nil_r.
  - change (str_join sep (x :: y :: rest))
      with (x ++ sep ++ str_join sep (y :: rest)).
    destruct Hin as [->|Hin]; [apply contains_refl_app|].
    now apply contains_app_r, contains_app_r, IH.
Qed.

(** X6. In a successful result the text of every page dictionary occurs in
    [full_text]. *)
Theorem read_pdf_text_full_text_contains (env : Env) (file_path : string)
    (page_numbers : option (list Z)) (with_tables : bool) :
  read_pdf_text env file_path page_numbers with_tables !! "success"
    = Some (VBool true) ->
  exists result_pages full_text,
    read_pdf_text env file_path page_numbers with_tables !! "pages"
      = Some (VList result_pages) /\
    read_pdf_text env file_path page_numbers with_tables !! "full_text"
      = Some (VStr full_text) /\
    Forall (fun v => exists t, text_of v = Some t /\ contains full_text t)
      result_pages.
Proof.
  intros Hs.
  destruct (read_pdf_text_success _ _ _ _ Hs)
    as (pdf & pages & items & _ & _ & _ & _ & _ & Hloop & ->).
  exists (map (fun item => VDict (fst item)) items),
    (str_join blank_line (map snd items)).
  split; [reflexivity|]. split; [reflexivity|].
  apply (map_Some_Forall text_of _ _ (map snd items));
    [exact (items_texts _ _ _ _ Hloop)|].
  apply Forall_forall. intros t Ht.
  apply str_join_contains. now apply list_elem_of_In.
Qed.

Lemma read_pdf_text_full_text_contains_witness :
  exists result_pages full_text,
    read_pdf_text Sample.env "/docs/report.pdf" (Some [4; 2]%Z) false !! "pages"
      = Some (VList result_pages) /\
    read_pdf_text Sample.env "/docs/report.pdf" (Some [4; 2]%Z) false
      !! "full_text" = Some (VStr full_text) /\
    Forall (fun v => exists t, text_of v = Some t /\ contains full_text t)
      result_pages.
Proof.
  exact (read_pdf_text_full_text_contains Sample.env "/docs/report.pdf"
           (Some [4; 2]%Z) false eq_refl).
Defined.

(** X7. What a successful result says about tables: without the
    [extract_tables] flag no page dictionary has a [tables] or
    [table_extraction_error] key; with it every page dictionary has
    [tables], holding the extracted tables unchanged when the extraction
    returned, and the empty list together with [table_extraction_error]
    when it raised. *)
Theorem read_pdf_text_tables (env : Env) (file_path : string)
    (page_numbers : option (list Z)) (with_tables : bool) :
  read_pdf_text env file_path page_numbers with_tables !! "success"
    = Some (VBool true) ->
  exists pdf pages page_dicts,
    pdfplumber_open env file_path = Ok pdf /\
    pdf_pages pdf = Ok pages /\
    read_pdf_text env file_path page_numbers with_tables !! "pages"
      = Some (VList (map VDict page_dicts)) /\
    Forall2
      (fun p d => exists page,
         pages !! Z.to_nat (p - 1) = Some page /\
         tables_recorded with_tables page d)
      (kept_numbers page_numbers (length pages)) page_dicts.
Proof.
  intros Hs.
  destruct (read_pdf_text_success _ _ _ _ Hs)
    as (pdf & pages & items & _ & _ & _ & Hopen & Hpages & Hloop & ->).
  exists pdf, pages, (map fst items).
  split; [exact Hopen|]. split; [exact Hpages|].
  split; [now rewrite map_map|].
  apply collect_Forall2 in Hloop. rewrite pages_to_process_kept in Hloop.
  pose proof (kept_numbers_positive page_numbers (length pages)) as Hpos.
  revert Hloop Hpos. generalize (kept_numbers page_numbers (length pages)).
  intros kept. revert items.
  induction kept as [|p kept IH]; intros items Hloop Hpos;
    inversion Hloop as [|idx [info text] idxs its Hp Hrest]; subst;
    cbn [map fst]; constructor.
  - apply Forall_cons in Hpos as [Hp1 _].
    apply process_page_inv in Hp as (page & tx & Hpage & _ & _ & Htab); [|lia].
    eauto.
  - apply Forall_cons in Hpos as [_ Hpos]. now apply IH.
Qed.

Lemma read_pdf_text_tables_witness :
  exists cover blank,
    read_pdf_text Scanned.env "/docs/scan.pdf" (Some [1; 3]%Z) true !! "pages"
      = Some (VList [VDict cover; VDict blank]) /\
    cover !! "tables"
      = Some (VList [VList [VList [VStr "a"; VNone]]]) /\
    cover !! "table_extraction_error" = None /\
    blank !! "tables" = Some (VList []) /\
    blank !! "table_extraction_error" = Some (VStr "no edges").
Proof.
  destruct (read_pdf_text_tables Scanned.env "/docs/scan.pdf"
              (Some [1; 3]%Z) true eq_refl)
    as (pdf & pages & page_dicts & Hopen & Hpages & Hres & Hall).
  injection Hopen as <-. injection Hpages as <-.
  change (kept_numbers (Some [1; 3]%Z) (length Scanned.pages))
    with [1%Z; 3%Z] in Hall.
  destruct page_dicts as [|cover [|blank [|x page_dicts]]];
    try (exfalso; apply Forall2_length in Hall; discriminate Hall).
  apply Forall2_cons in Hall as [(page1 & Hp1 & Ht1) Hall].
  apply Forall2_cons in Hall as [(page3 & Hp3 & Ht3) _].
  injection Hp1 as <-. injection Hp3 as <-.
  exists cover, blank. split; [exact Hres|].
  destruct Ht1 as [Ha Hb]. destruct Ht3 as [Hc Hd].
  split; [exact Ha|]. split; [exact Hb|]. split; [exact Hc | exact Hd].
Defined.

(** ** read_pdf_text: the extract_tables flag *)

(** The loop body with and without table extraction: both raise the same
    exception, or both return, with the same text, page number and text
    entry. *)
Lemma process_page_flag (pages : list Page) (idx : Z) :
  match process_page pages true idx, process_page pages false idx with
  | Ok (info1, text1), Ok (info0, text0) =>
      text1 = text0 /\
      page_number_of (VDict info1) = page_number_of (VDict info0) /\
      text_of (VDict info1) = text_of (VDict info0)
  | Raise e1, Raise e0 => e1 = e0
  | _, _ => False
  end.
Proof.
  unfold process_page.
  destruct (py_index pages idx) as [page|e]; cbn [rbind]; [|reflexivity].
  destruct (extract_text page) as [tx|e]; cbn [rbind]; [|reflexivity].
  destruct (extract_tables page); repeat split.
Qed.

Lemma collect_flag (pages : list Page) (idxs : list Z) :
  match collect (process_page pages true) idxs,
        collect (process_page pages false) idxs with
  | Ok items1, Ok items0 =>
      map snd items1 = map snd items0 /\
      map (fun item => (page_number_of (VDict (fst item)),
                        text_of (VDict (fst item)))) items1
      = map (fun item => (page_number_of (VDict (fst item)),
                          text_of (VDict (fst item)))) items0
  | Raise e1, Raise e0 => e1 = e0
  | _, _ => False
  end.
Proof.
  induction idxs as [|idx idxs IH]; cbn [collect]; [split; reflexivity|].
  pose proof (process_page_flag pages idx) as Hp.
  destruct (process_page pages true idx) as [[info1 text1]|e1],
    (process_page pages false idx) as [[info0 text0]|e0];
    cbn [rbind]; try contradiction; [|exact Hp].
  destruct Hp as (Ht & Hn & Hx).
  destruct (collect (process_page pages true) idxs) as [items1|e1],
    (collect (process_page pages false) idxs) as [items0|e0];
    cbn [rbind]; try contradiction; [|exact IH].
  destruct IH as [IH1 IH2]. cbn [map fst snd].
  now rewrite Ht, Hn, Hx, IH1, IH2.
Qed.

(** X8. Asking for tables changes nothing but the table entries of the
    pages: with and without the [extract_tables] flag the call has the same
    [success], [error], [file_path], [total_pages] and [full_text], and the
    same page numbers and page texts in the same order.  In particular a
    table extraction that raises never fails the call. *)
Theorem read_pdf_text_tables_flag (env : Env) (file_path : string)
    (page_numbers : option (list Z)) :
  Forall
    (fun key =>
       read_pdf_text env file_path page_numbers true !! key
       = read_pdf_text env file_path page_numbers false !! key)
    ["success"; "error"; "file_path"; "total_pages"; "full_text"] /\
  page_summaries (read_pdf_text env file_path page_numbers true)
  = page_summaries (read_pdf_text env file_path page_numbers false).
Proof.
  unfold read_pdf_text, read_pdf_text_body, read_pdf_text_except.
  destruct (isabs env file_path); cbn [negb];
    [|split; [repeat constructor | reflexivity]].
  destruct (path_exists env file_path); cbn [negb];
    [|split; [repeat constructor | reflexivity]].
  destruct (endswith (lower file_path) ".pdf"); cbn [negb];
    [|split; [repeat constructor | reflexivity]].
  destruct (pdfplumber_open env file_path) as [pdf|e]; cbn [rbind];
    [|split; [repeat constructor | reflexivity]].
  destruct (pdf_pages pdf) as [pages|e]; cbn [rbind];
    [|split; [repeat constructor | reflexivity]].
  rewrite !process_pages_collect.
  pose proof (collect_flag pages (pages_to_process page_numbers (length pages)))
    as Hflag.
  destruct (collect (process_page pages true) _) as [items1|e1],
    (collect (process_page pages false) _) as [items0|e0];
    cbn [rbind]; try contradiction.
  - destruct Hflag as [Htexts Hsum]. cbn [app].
    split.
    + repeat constructor. cbn [try_except].
      change (Some (VStr (str_join blank_line (map snd items1)))
              = Some (VStr (str_join blank_line (map snd items0)))).
      now rewrite Htexts.
    + unfold page_summaries. cbn [try_except].
      change (Some (map (fun v => (page_number_of v, text_of v))
                      (map (fun item : gmap string value * string =>
                              VDict (fst item)) items1))
              = Some (map (fun v => (page_number_of v, text_of v))
                        (map (fun item : gmap string value * string =>
                                VDict (fst item)) items0))).
      rewrite !map_map. now f_equal.
  - subst e0. split; [repeat constructor | reflexivity].
Qed.

(** ** get_pdf_info: validation, success and failure *)

(** X9. [get_pdf_info] checks absoluteness before existence: a relative
    path gets the not-absolute message whether or not it exists, an absolute
    path that does not exist gets the not-found message. *)
Theorem get_pdf_info_validation_order (env : Env) (file_path : string) :
  (isabs env file_path = false ->
   get_pdf_info env file_path
   = failure ("File path must be absolute path, got: " ++ file_path)) /\
  (isabs env file_path = true -> path_exists env file_path = false ->
   get_pdf_info env file_path = failure ("File not found: " ++ file_path)).
Proof.
  unfold get_pdf_info, get_pdf_info_body, get_pdf_info_except. split.
  - intros ->. reflexivity.
  - intros -> ->. reflexivity.
Qed.

Lemma get_pdf_info_validation_order_witness :
  path_exists Sample.env "docs/report.pdf" = true /\
  get_pdf_info Sample.env "docs/report.pdf"
  = failure "File path must be absolute path, got: docs/report.pdf" /\
  get_pdf_info Sample.env "/docs/gone.pdf"
  = failure "File not found: /docs/gone.pdf".
Proof.
  split; [reflexivity|]. split.
  - exact (proj1 (get_pdf_info_validation_order Sample.env "docs/report.pdf")
             eq_refl).
  - exact (proj2 (get_pdf_info_validation_order Sample.env "/docs/gone.pdf")
             eq_refl eq_refl).
Defined.

(** X10. A path that fails the absoluteness or the existence check gets the
    same error dictionary from [read_pdf_text] and from [get_pdf_info]. *)
Theorem validation_errors_agree (env : Env) (file_path : string)
    (page_numbers : option (list Z)) (with_tables : bool) :
  isabs env file_path = false \/ path_exists env file_path = false ->
  read_pdf_text env file_path page_numbers with_tables
  = get_pdf_info env file_path.
Proof.
  unfold read_pdf_text, read_pdf_text_body, read_pdf_text_except,
    get_pdf_info, get_pdf_info_body, get_pdf_info_except.
  intros [H|H]; rewrite H; [reflexivity|].
  destruct (isabs env file_path); reflexivity.
Qed.

Lemma validation_errors_agree_witness :
  read_pdf_text Sample.env "/docs/gone.pdf" (Some [1%Z]) true
  = get_pdf_info Sample.env "/docs/gone.pdf".
Proof.
  exact (validation_errors_agree Sample.env "/docs/gone.pdf" (Some [1%Z]) true
           (or_intror eq_refl)).
Defined.

(** X11. [get_pdf_info] succeeds exactly when the path is absolute and
    exists, the file opens, the reader is built, its page count and
    metadata can be read and the size of the file can be taken; the result
    then echoes the path and holds that page count, that size, and as
    [metadata] the empty map or the seven recognized keys. *)
Theorem get_pdf_info_success_iff (env : Env) (file_path : string) :
  (get_pdf_info env file_path !! "success" = Some (VBool true) <->
   isabs env file_path = true /\
   path_exists env file_path = true /\
   exists file pdf_reader page_count metadata file_size,
     open_rb env file_path = Ok file /\
     PdfReader env file = Ok pdf_reader /\
     reader_num_pages pdf_reader = Ok page_count /\
     reader_metadata pdf_reader = Ok metadata /\
     getsize env file_path = Ok file_size) /\
  (forall file pdf_reader page_count metadata file_size,
     isabs env file_path = true ->
     path_exists env file_path = true ->
     open_rb env file_path = Ok file ->
     PdfReader env file = Ok pdf_reader ->
     reader_num_pages pdf_reader = Ok page_count ->
     reader_metadata pdf_reader = Ok metadata ->
     getsize env file_path = Ok file_size ->
     get_pdf_info env file_path
     = dict [("success", VBool true); ("file_path", VStr file_path);
             ("page_count", VInt (Z.of_nat page_count));
             ("metadata", VDict (expected_metadata metadata));
             ("file_size", VInt file_size)]).
Proof.
  assert (Hrun : forall file pdf_reader page_count metadata file_size,
     isabs env file_path = true ->
     path_exists env file_path = true ->
     open_rb env file_path = Ok file ->
     PdfReader env file = Ok pdf_reader ->
     reader_num_pages pdf_reader = Ok page_count ->
     reader_metadata pdf_reader = Ok metadata ->
     getsize env file_path = Ok file_size ->
     get_pdf_info env file_path
     = dict [("success", VBool true); ("file_path", VStr file_path);
             ("page_count", VInt (Z.of_nat page_count));
             ("metadata", VDict (expected_metadata metadata));
             ("file_size", VInt file_size)]).
  { intros file pdf_reader page_count metadata file_size
      Habs Hex Hopen Hreader Hcount Hmeta Hsize.
    unfold get_pdf_info, get_pdf_info_body, get_pdf_info_except,
      get_pdf_info_read.
    rewrite Habs, Hex. cbn [negb]. rewrite Hopen. cbn [rbind].
    rewrite Hreader. cbn [rbind]. rewrite Hcount. cbn [rbind].
    rewrite Hmeta. cbn [rbind]. rewrite Hsize. cbn [rbind try_except].
    rewrite <- returned_metadata_expected. unfold returned_metadata.
    destruct (metadata_truthy metadata); [destruct metadata|]; reflexivity. }
  split; [split|exact Hrun].
  - intros Hs. destruct (get_pdf_info_success _ _ Hs) as (Habs & Hex & Hread).
    split; [exact Habs|]. split; [exact Hex|].
    destruct (get_pdf_info_read_ok _ _ _ Hread)
      as (file & pdf_reader & page_count & metadata & file_size
          & Hopen & Hreader & Hcount & Hmeta & Hsize & _).
    exists file, pdf_reader, page_count, metadata, file_size.
    repeat (split; [assumption|]). assumption.
  - intros (Habs & Hex & file & pdf_reader & page_count & metadata & file_size
            & Hopen & Hreader & Hcount & Hmeta & Hsize).
    rewrite (Hrun file pdf_reader page_count metadata file_size
               Habs Hex Hopen Hreader Hcount Hmeta Hsize).
    reflexivity.
Qed.

Lemma get_pdf_info_success_iff_witness :
  get_pdf_info Sample.env "/docs/titled.pdf"
  = dict [("success", VBool true); ("file_path", VStr "/docs/titled.pdf");
          ("page_count", VInt 1);
          ("metadata",
           VDict (dict [("title", VStr "Report"); ("author", VStr "");
                        ("subject", VInt 42); ("creator", VStr "");
                        ("producer", VStr "");
                        ("creation_date", VStr "IndirectObject(7, 0)");
                        ("modification_date", VStr "")]));
          ("file_size", VInt 2048)].
Proof.
  exact (proj2 (get_pdf_info_success_iff Sample.env "/docs/titled.pdf")
           [Byte.x25; Byte.x50]
           {| reader_num_pages := Ok 1;
              reader_metadata := Ok (Some Sample.titled) |}
           1 (Some Sample.titled) 2048%Z
           eq_refl eq_refl eq_refl eq_refl eq_refl eq_refl eq_refl).
Defined.

(** X12. The size of the file is taken last, inside the same [try]: when
    the document parses but [os.path.getsize] raises, the page count and the
    metadata are dropped and the result is the error form for that
    exception. *)
Theorem get_pdf_info_size_failure (env : Env) (file_path : string)
    (file : list Byte.byte) (pdf_reader : Reader) (page_count : nat)
    (metadata : option (gmap string PyObject)) (e : exn) :
  isabs env file_path = true ->
  path_exists env file_path = true ->
  open_rb env file_path = Ok file ->
  PdfReader env file = Ok pdf_reader ->
  reader_num_pages pdf_reader = Ok page_count ->
  reader_metadata pdf_reader = Ok metadata ->
  getsize env file_path = Raise e ->
  get_pdf_info env file_path = get_pdf_info_error file_path e.
Proof.
  intros Habs Hex Hopen Hreader Hcount Hmeta Hsize.
  unfold get_pdf_info, get_pdf_info_body, get_pdf_info_except,
    get_pdf_info_read.
  rewrite Habs, Hex. cbn [negb]. rewrite Hopen. cbn [rbind].
  rewrite Hreader. cbn [rbind]. rewrite Hcount. cbn [rbind].
  rewrite Hmeta. cbn [rbind]. rewrite Hsize. cbn [rbind].
  now destruct e.
Qed.

Lemma get_pdf_info_size_failure_witness :
  get_pdf_info Scanned.env "/docs/scan.pdf"
  = failure ("Permission denied accessing file: /docs/scan.pdf. "
             ++ "Error: [Errno 13] Permission denied").
Proof.
  exact (get_pdf_info_size_failure Scanned.env "/docs/scan.pdf" [Byte.x25]
           {| reader_num_pages := Ok 5; reader_metadata := Ok None |} 5 None
           (PermissionError "[Errno 13] Permission denied")
           eq_refl eq_refl eq_refl eq_refl eq_refl eq_refl eq_refl).
Defined.

(** ** list_pdfs_in_directory: validation, success and entries *)

(** X13. [list_pdfs_in_directory] checks, in this order, that the path is
    absolute, that it exists and that it is a directory, and answers with
    the message of the first check that fails. *)
Theorem list_pdfs_in_directory_validation_order (env : Env)
    (directory_path : string) :
  (isabs env directory_path = false ->
   list_pdfs_in_directory env directory_path
   = failure ("Directory path must be absolute path, got: " ++ directory_path)) /\
  (isabs env directory_path = true -> path_exists env directory_path = false ->
   list_pdfs_in_directory env directory_path
   = failure ("Directory not found: " ++ directory_path)) /\
  (isabs env directory_path = true -> path_exists env directory_path = true ->
   isdir env directory_path = false ->
   list_pdfs_in_directory env directory_path
   = failure ("Path is not a directory: " ++ directory_path)).
Proof.
  unfold list_pdfs_in_directory, list_pdfs_in_directory_body,
    list_pdfs_in_directory_except.
  split; [|split].
  - intros ->. reflexivity.
  - intros -> ->. reflexivity.
  - intros -> -> ->. reflexivity.
Qed.

Lemma list_pdfs_in_directory_validation_order_witness :
  list_pdfs_in_directory Sample.env "docs"
  = failure "Directory path must be absolute path, got: docs" /\
  list_pdfs_in_directory Sample.env "/tmp"
  = failure "Directory not found: /tmp" /\
  list_pdfs_in_directory Sample.env "/docs/report.pdf"
  = failure "Path is not a directory: /docs/report.pdf".
Proof.
  destruct (list_pdfs_in_directory_validation_order Sample.env "docs")
    as (Hrel & _ & _).
  destruct (list_pdfs_in_directory_validation_order Sample.env "/tmp")
    as (_ & Hgone & _).
  destruct (list_pdfs_in_directory_validation_order Sample.env "/docs/report.pdf")
    as (_ & _ & Hfile).
  split; [exact (Hrel eq_refl)|].
  split; [exact (Hgone eq_refl eq_refl) | exact (Hfile eq_refl eq_refl eq_refl)].
Defined.






Lemma pdf_name_app (dir file : string) : pdf_name file -> pdf_name (dir ++ file).
Proof.
  intros (stem & c1 & c2 & c3 & -> & H1 & H2 & H3).
  exists (dir ++ stem), c1, c2, c3.
  split; [now rewrite string_app_assoc | auto].
Qed.

(** X16. The two tools fit together: a file found by the listing, whose
    full path ends with its name, is never turned down by [read_pdf_text]
    for its suffix. *)
Theorem listed_file_passes_suffix_check (env : Env)
    (directory_path root file : string)
    (page_numbers : option (list Z)) (with_tables : bool) :
  In (root, file) (discovered env directory_path) ->
  (exists dir, abspath env (path_join env root file) = dir ++ file) ->
  isabs env (abspath env (path_join env root file)) = true ->
  path_exists env (abspath env (path_join env root file)) = true ->
  read_pdf_text env (abspath env (path_join env root file))
    page_numbers with_tables
  <> failure "File must be a PDF".
Proof.
  intros Hfound [dir Hfull] Habs Hex.
  apply discovered_iff in Hfound as [Hname _].
  apply read_pdf_text_suffix_accepted; [exact Habs | exact Hex |].
  rewrite Hfull. now apply endswith_lower_pdf, pdf_name_app.
Qed.

Lemma listed_file_passes_suffix_check_witness :
  In ("/docs", "b.PDF") (discovered Sample.env "/docs") /\
  read_pdf_text Sample.env "/docs/b.PDF" None false
  <> failure "File must be a PDF".
Proof.
  assert (Hfound : In ("/docs", "b.PDF") (discovered Sample.env "/docs"))
    by (right; left; reflexivity).
  split; [exact Hfound|].
  exact (listed_file_passes_suffix_check Sample.env "/docs" "/docs" "b.PDF"
           None false Hfound (ex_intro _ "/docs/" eq_refl) eq_refl eq_refl).
Defined.
